(** * Greenly: the authorization middleware and the persistence library

    A shallow embedding of [server/lib/authorization.js] (the [check]
    middleware), of the part of [server/lib/authentication.js] it calls
    (the JWT [check] middleware) and of the user and address functions of
    [server/lib/persistence.js], followed by the properties of the
    natural-language specification that concern them and by further
    properties of the same code. *)

From Stdlib Require Import ZArith Ascii String List Bool Lia DecimalString.
From stdpp Require Import base option gmap strings.
Import ListNotations.

Local Open Scope string_scope.
Local Open Scope Z_scope.

(** ** The fragment of JavaScript the middleware relies on

    Express hands route parameters over as strings, Prisma hands ids over
    as numbers, and the middleware compares the two with [==] and
    [Number(...)].  A string is the UTF-8 encoding of the JavaScript
    string. *)

Module JS.

(** A number is NaN, an infinity, or the finite value [m * 2^e].  The sign
    of zero is not kept: neither [==] nor [Array.prototype.includes]
    observes it. *)
Inductive Number : Type :=
| NaN
| Infinity (negative : bool)
| Finite (m e : Z).

(** Finite numbers are kept with an odd mantissa (zero as [Finite 0 0]). *)
Fixpoint odd_part (p : positive) (e : Z) : positive * Z :=
  match p with
  | xO p' => odd_part p' (e + 1)
  | _ => (p, e)
  end.

Definition finite (m e : Z) : Number :=
  match m with
  | Z0 => Finite 0 0
  | Zpos p => let '(p', e') := odd_part p e in Finite (Zpos p') e'
  | Zneg p => let '(p', e') := odd_part p e in Finite (Zneg p') e'
  end.

(** An integer of magnitude below [2^53], such as a database id, is a
    number as it stands. *)
Definition of_Z (z : Z) : Number := finite z 0.

(** IEEE equality, the comparison [==] and [===] make on two numbers. *)
Definition number_eqb (a b : Number) : bool :=
  match a, b with
  | Finite m1 e1, Finite m2 e2 =>
      let e := Z.min e1 e2 in
      m1 * 2 ^ (e1 - e) =? m2 * 2 ^ (e2 - e)
  | Infinity s1, Infinity s2 => Bool.eqb s1 s2
  | _, _ => false
  end.

(** SameValueZero, the comparison of [Array.prototype.includes]. *)
Definition same_value_zero (a b : Number) : bool :=
  match a, b with
  | NaN, NaN => true
  | _, _ => number_eqb a b
  end.

Definition includes (l : list Number) (x : Number) : bool :=
  existsb (same_value_zero x) l.

(** Round [num / den] to the nearest integer, ties to even. *)
Definition round_half_even (num den : Z) : Z :=
  let q := num / den in
  let r := num mod den in
  if 2 * r <? den then q
  else if den <? 2 * r then q + 1
  else if Z.even q then q else q + 1.

(** The binary64 value nearest to [n / d], for [0 <= n] and [0 < d]. *)
Definition binary64 (negative : bool) (n d : Z) : Number :=
  if n =? 0 then Finite 0 0
  else
    let k0 := Z.log2 n - Z.log2 d in
    let below :=
      if 0 <=? k0 then n <? d * 2 ^ k0 else n * 2 ^ (- k0) <? d in
    let k := if below then k0 - 1 else k0 in
    let q := Z.max (k - 52) (-1074) in
    let num := if 0 <=? q then n else n * 2 ^ (- q) in
    let den := if 0 <=? q then d * 2 ^ q else d in
    let m := round_half_even num den in
    if (0 <=? q) && (2 ^ 1024 <=? m * 2 ^ q) then Infinity negative
    else finite (if negative then - m else m) q.

Definition code (c : ascii) : Z := Z.of_nat (nat_of_ascii c).

(** WhiteSpace and LineTerminator, the characters StringToNumber strips at
    both ends of the string.  Strings are UTF-8, so a character is one,
    two or three bytes: TAB, LF, VT, FF, CR and SP; U+00A0; U+1680,
    U+2000 to U+200A, U+2028, U+2029, U+202F, U+205F, U+3000 and
    U+FEFF. *)
Definition is_white_space (c : ascii) : bool :=
  let b := code c in
  ((9 <=? b) && (b <=? 13)) || (b =? 32).

Definition is_white_space_2 (c1 c2 : ascii) : bool :=
  (code c1 =? 194) && (code c2 =? 160).

Definition is_white_space_3 (c1 c2 c3 : ascii) : bool :=
  let b1 := code c1 in
  let b2 := code c2 in
  let b3 := code c3 in
  ((b1 =? 225) && (b2 =? 154) && (b3 =? 128))
  || ((b1 =? 226) && (b2 =? 128)
      && (((128 <=? b3) && (b3 <=? 138))
          || (b3 =? 168) || (b3 =? 169) || (b3 =? 175)))
  || ((b1 =? 226) && (b2 =? 129) && (b3 =? 159))
  || ((b1 =? 227) && (b2 =? 128) && (b3 =? 128))
  || ((b1 =? 239) && (b2 =? 187) && (b3 =? 191)).

(** Drops the characters at the head that [one], [two] or [three]
    recognise. *)
Fixpoint drop_while
    (one : ascii -> bool) (two : ascii -> ascii -> bool)
    (three : ascii -> ascii -> ascii -> bool) (s : list ascii) : list ascii :=
  match s with
  | c1 :: t1 =>
      if one c1 then drop_while one two three t1
      else
        match t1 with
        | c2 :: t2 =>
            if two c1 c2 then drop_while one two three t2
            else
              match t2 with
              | c3 :: t3 =>
                  if three c1 c2 c3 then drop_while one two three t3 else s
              | [] => s
              end
        | [] => s
        end
  | [] => []
  end.

Definition trim_start (s : list ascii) : list ascii :=
  drop_while is_white_space is_white_space_2 is_white_space_3 s.

(** The same from the end: on the reversed string the bytes of a
    character come last byte first. *)
Definition trim_end (s : list ascii) : list ascii :=
  rev (drop_while is_white_space
         (fun c2 c1 => is_white_space_2 c1 c2)
         (fun c3 c2 c1 => is_white_space_3 c1 c2 c3)
         (rev s)).

Definition trim (s : list ascii) : list ascii := trim_end (trim_start s).

Definition digit_value (c : ascii) : option Z :=
  let n := code c in
  if (48 <=? n) && (n <=? 57) then Some (n - 48)
  else if (97 <=? n) && (n <=? 102) then Some (n - 87)
  else if (65 <=? n) && (n <=? 70) then Some (n - 55)
  else None.

Definition digit_in (radix : Z) (c : ascii) : option Z :=
  match digit_value c with
  | Some d => if d <? radix then Some d else None
  | None => None
  end.

(** Reads the longest prefix of digits: the value accumulated onto [acc],
    how many digits were read, and what is left. *)
Fixpoint digits (radix : Z) (s : list ascii) (acc count : Z)
  : Z * Z * list ascii :=
  match s with
  | c :: t =>
      match digit_in radix c with
      | Some d => digits radix t (acc * radix + d) (count + 1)
      | None => (acc, count, s)
      end
  | [] => (acc, count, [])
  end.

(** [0x..], [0o..] and [0b..] literals: digits only, at least one. *)
Definition non_decimal (radix : Z) (s : list ascii) : Number :=
  match digits radix s 0 0 with
  | (v, n, []) => if 0 <? n then binary64 false v 1 else NaN
  | _ => NaN
  end.

Definition signed_digits (s : list ascii) : option Z :=
  let '(negative, t) :=
    match s with
    | "+"%char :: t => (false, t)
    | "-"%char :: t => (true, t)
    | _ => (false, s)
    end in
  match digits 10 t 0 0 with
  | (v, n, []) => if 0 <? n then Some (if negative then - v else v) else None
  | _ => None
  end.

Definition exponent_part (s : list ascii) : option Z :=
  match s with
  | [] => Some 0
  | "e"%char :: t | "E"%char :: t => signed_digits t
  | _ => None
  end.

(** StrUnsignedDecimalLiteral. *)
Definition unsigned_decimal (negative : bool) (s : list ascii) : Number :=
  if String.eqb (string_of_list_ascii s) "Infinity" then Infinity negative
  else
    let '(ip, n1, r1) := digits 10 s 0 0 in
    let '(mant, n2, r2) :=
      match r1 with
      | "."%char :: t => digits 10 t ip 0
      | _ => (ip, 0, r1)
      end in
    if n1 + n2 =? 0 then NaN
    else
      match exponent_part r2 with
      | Some e =>
          let e10 := e - n2 in
          if 0 <=? e10 then binary64 negative (mant * 10 ^ e10) 1
          else binary64 negative mant (10 ^ (- e10))
      | None => NaN
      end.

(** The radix a literal announces with [0x], [0o] or [0b], in either
    case, and the digits after the prefix. *)
Definition radix_prefix (s : list ascii) : option (Z * list ascii) :=
  match s with
  | c1 :: c2 :: r =>
      if code c1 =? 48 then
        if (code c2 =? 120) || (code c2 =? 88) then Some (16, r)
        else if (code c2 =? 111) || (code c2 =? 79) then Some (8, r)
        else if (code c2 =? 98) || (code c2 =? 66) then Some (2, r)
        else None
      else None
  | _ => None
  end.

(** ToNumber applied to a string (StringToNumber). *)
Definition StringToNumber (s : string) : Number :=
  match trim (list_ascii_of_string s) with
  | [] => Finite 0 0
  | c :: r =>
      match radix_prefix (c :: r) with
      | Some (radix, digits) => non_decimal radix digits
      | None =>
          if code c =? 43 then unsigned_decimal false r
          else if code c =? 45 then unsigned_decimal true r
          else unsigned_decimal false (c :: r)
      end
  end.

(** [Number(v)] for a route parameter, [undefined] when the route has no
    such parameter. *)
Definition ToNumber (v : option string) : Number :=
  match v with
  | Some s => StringToNumber s
  | None => NaN
  end.

(** [v == n] for a route parameter [v] and a number [n]: the string is
    converted first; [undefined] equals no number. *)
Definition loose_eq_number (v : option string) (n : Number) : bool :=
  match v with
  | Some s => number_eqb (StringToNumber s) n
  | None => false
  end.

(** A field of a parsed JSON body.  An array or object is kept as what
    its conversion to a primitive gives, which is all [==] against a
    string looks at: a string ([["a"]] gives ["a"], [{}] gives
    ["[object Object]"]), or a TypeError, when the object has no callable
    [toString] left because the body gave it a field of that name
    ([{toString: 1}]), or holds such an object in an array. *)
Inductive Value : Type :=
| Null
| Boolean (b : bool)
| Num (n : Number)
| Str (s : string)
| Obj (primitive : string)
| Unconvertible.

(** [v == s] for a body field [v] ([None] is [undefined]) and a string;
    [None] when the comparison throws a TypeError. *)
Definition loose_eq_string (v : option Value) (s : string) : option bool :=
  match v with
  | Some (Str t) | Some (Obj t) => Some (String.eqb t s)
  | Some (Num n) => Some (number_eqb n (StringToNumber s))
  | Some (Boolean b) =>
      Some (number_eqb (of_Z (if b then 1 else 0)) (StringToNumber s))
  | Some Null | None => Some false
  | Some Unconvertible => None
  end.

End JS.

(** ** Data model *)

(** Modelled from the spec: the Prisma enumeration [User_type] imported
    from [@prisma/client], whose declaration (the database schema) is not
    part of the sources; the spec gives the four roles. *)
Inductive User_type : Type :=
| CONSUMER
| SUPPLIER
| TRANSPORTER
| ADMINISTRATOR.

Definition User_type_eqb (a b : User_type) : bool :=
  match a, b with
  | CONSUMER, CONSUMER | SUPPLIER, SUPPLIER
  | TRANSPORTER, TRANSPORTER | ADMINISTRATOR, ADMINISTRATOR => true
  | _, _ => false
  end.

(** An element of [user.Address]; of the columns [getUserByID] selects the
    middleware reads [id] only. *)
Record AddressObject : Type := { address_id : Z }.

(** The user record [getUserByID] returns, with the fields the middleware
    reads: [id], [type] and [Address]. *)
Record User : Type := {
  id : Z;
  type : User_type;
  Address : list AddressObject
}.

(** What the middleware reads of the Express request: [req.method],
    [req.baseUrl], [req.route.path], [req.params] (decoded strings),
    [req.body] and [req.user] as the middleware finds it on entry ([None]
    for [undefined]).  [req.body] is what the JSON body parser leaves
    there, an object or an array, [{}] when the request carried none,
    given by its own properties: whatever else the middleware asks of it
    is looked up on [Object.prototype]. *)
Record Request : Type := {
  method : string;
  baseUrl : string;
  route_path : string;
  params : gmap string string;
  body : gmap string JS.Value;
  user : option User
}.

(** The body of a response: [{message: ...}], or the value of
    [defaultErr()], a helper of [./error] that is not part of the sources. *)
Inductive Payload : Type :=
| Message (message : string)
| DefaultErr.

(** What a run does to the outside, in order. *)
Inductive Effect : Type :=
| Next
| Send (status : Z) (payload : Payload)
| FindUnique (userId : Z)
| OrderQuery (caller : option User) (orderId : option string)
| ItemQuery (caller : option User) (orderId itemId : option string).

(** ** Collaborators *)

(** An awaited call either yields a value or rejects. *)
Inductive Awaited (A : Type) : Type :=
| Resolves (a : A)
| Rejects.
Arguments Resolves {A} a.
Arguments Rejects {A}.

(** What passport's JWT strategy hands to the callback of
    [passport.authenticate]: an error, no user, or the user of the token. *)
Inductive JwtVerdict : Type :=
| JwtError
| JwtNoUser
| JwtUser (tokenUser_id : Z).

(** The world of one request: the verdict on its bearer token, the user
    table behind [prisma.user.findUnique], and the two relationship
    queries of the persistence library, [checkUserOrderRelationship] and
    [checkUserItemRelationship], whose definitions are not part of the
    sources and are taken as they come: each answers a boolean or
    rejects. *)
Record Collaborators : Type := {
  jwt : JwtVerdict;
  findUnique : Z -> Awaited (option User);
  checkUserOrderRelationship : option User -> option string -> Awaited bool;
  checkUserItemRelationship :
    option User -> option string -> option string -> Awaited bool
}.

(** ** Effects: request state, trace, exceptions and pending promises *)

Inductive Exception : Type :=
| TypeError
| Rejection.

(** How an asynchronous function ends: it returns, it throws (its promise
    rejects), or it stays suspended on a promise nobody settles. *)
Inductive Completion (A : Type) : Type :=
| Returned (a : A)
| Threw (e : Exception)
| Pending.
Arguments Returned {A} a.
Arguments Threw {A} e.
Arguments Pending {A}.

(** [req.user], which [authentication.check] assigns; whether the promise
    the authorization middleware builds around it has been resolved; and
    the effects so far. *)
Record State : Type := {
  req_user : option User;
  resolved : bool;
  trace : list Effect
}.

Definition M (A : Type) : Type := State -> Completion A * State.

Definition ret {A} (a : A) : M A := fun s => (Returned a, s).

Definition bind {A B} (m : M A) (k : A -> M B) : M B :=
  fun s =>
    match m s with
    | (Returned a, s') => k a s'
    | (Threw e, s') => (Threw e, s')
    | (Pending, s') => (Pending, s')
    end.

Declare Scope js_scope.
Delimit Scope js_scope with js.
Notation "x <- m ;; k" := (bind m (fun x => k))
  (at level 100, m at next level, right associativity) : js_scope.
Notation "m ;; k" := (bind m (fun _ => k))
  (at level 100, right associativity) : js_scope.
Local Open Scope js_scope.

Definition throw {A} (e : Exception) : M A := fun s => (Threw e, s).

(** [try { m } catch (e) { h }] *)
Definition try_catch {A} (m h : M A) : M A :=
  fun s =>
    match m s with
    | (Threw _, s') => h s'
    | r => r
    end.

Definition emit (e : Effect) : M unit :=
  fun s =>
    (Returned tt,
     {| req_user := req_user s; resolved := resolved s;
        trace := trace s ++ [e] |}).

Definition get_user : M (option User) := fun s => (Returned (req_user s), s).

Definition set_user (u : User) : M unit :=
  fun s =>
    (Returned tt,
     {| req_user := Some u; resolved := resolved s; trace := trace s |}).

(** [resolve()] of the promise, and [await] on it. *)
Definition resolve : M unit :=
  fun s =>
    (Returned tt,
     {| req_user := req_user s; resolved := true; trace := trace s |}).

Definition await_promise : M unit :=
  fun s => if resolved s then (Returned tt, s) else (Pending, s).

(** [await] on a collaborator's answer. *)
Definition await {A} (r : Awaited A) : M A :=
  match r with
  | Resolves a => ret a
  | Rejects => throw Rejection
  end.

(** [res.status(status).json(payload)], [res.status(status).send(payload)] *)
Definition send (status : Z) (payload : Payload) : M unit :=
  emit (Send status payload).

(** [a || b] and [a && b], the right operand evaluated only if needed. *)
Definition orM (a b : M bool) : M bool :=
  x <- a ;; if x then ret true else b.

Definition andM (a b : M bool) : M bool :=
  x <- a ;; if x then b else ret false.

(** ** persistence.js *)

Module persistence.

(** [getUserByID(id)]: the record, or [null] when there is none or the
    query fails. *)
Definition getUserByID (w : Collaborators) (userId : Z) : M (option User) :=
  try_catch
    (emit (FindUnique userId) ;; await (findUnique w userId))
    (ret None).

End persistence.

(** ** authentication.js *)

Module authentication.

Definition invalid_token : Payload :=
  Message "Invalid token. Unauthorized access.".

(** [check(req, res, next)]: validates the token and loads the user into
    [req.user]. *)
Definition check (w : Collaborators) (next : M unit) : M unit :=
  match jwt w with
  | JwtError | JwtNoUser => send 401 invalid_token
  | JwtUser tokenUser_id =>
      try_catch
        (retrievedUser <- persistence.getUserByID w tokenUser_id ;;
         match retrievedUser with
         | Some u => set_user u ;; next
         | None => send 401 invalid_token
         end)
        (send 500 DefaultErr)
  end.

End authentication.

(** ** authorization.js *)

Module authorization.

(** The values of the [resourceIdentification] table. *)
Inductive ResourceKind : Type :=
| ALL_USERS
| SINGLE_USER
| ALL_ADDRESSES
| SINGLE_ADDRESS
| ALL_NOTIFICATIONS
| SINGLE_NOTIFICATION
| ALL_USER_ORDERS
| SINGLE_PRODUCT
| ALL_ORDERS
| SINGLE_ORDER
| SINGLE_ORDER_ITEM
| ALL_CATEGORIES
| SINGLE_CATEGORY
| ALL_CART_ITEMS
| SINGLE_CART_ITEM
| ALL_WISHLIST_ITEMS
| SINGLE_WISHLIST_ITEM.

(** The table from route template to resource kind.  A route that is not
    among its keys selects no [case] of the switch. *)
Definition resourceIdentification : gmap string ResourceKind :=
  list_to_map [
    ("/user/",                                      ALL_USERS);
    ("/user/:userId",                               SINGLE_USER);
    ("/user/:userId/addresses",                     ALL_ADDRESSES);
    ("/user/:userId/addresses/:addressId",          SINGLE_ADDRESS);
    ("/user/:userId/notifications",                 ALL_NOTIFICATIONS);
    ("/user/:userId/notifications/:notificationId", SINGLE_NOTIFICATION);
    ("/user/:userId/orders",                        ALL_USER_ORDERS);
    ("/store/products/:productId",                  SINGLE_PRODUCT);
    ("/store/orders",                               ALL_ORDERS);
    ("/store/orders/:orderId",                      SINGLE_ORDER);
    ("/store/orders/:orderId/:itemId",              SINGLE_ORDER_ITEM);
    ("/store/categories",                           ALL_CATEGORIES);
    ("/store/categories/:categoryId",               SINGLE_CATEGORY);
    ("/user/:userId/cart",                          ALL_CART_ITEMS);
    ("/user/:userId/cart/:index",                   SINGLE_CART_ITEM);
    ("/user/:userId/wishlist",                      ALL_WISHLIST_ITEMS);
    ("/user/:userId/wishlist/:productId",           SINGLE_WISHLIST_ITEM)
  ].

(** [user.type == "ADMINISTRATOR"]; reading [type] of [undefined] throws. *)
Definition isAdministrator (u : option User) : M bool :=
  match u with
  | Some u => ret (User_type_eqb (type u) ADMINISTRATOR)
  | None => throw TypeError
  end.

Definition isConsumer (u : option User) : M bool :=
  match u with
  | Some u => ret (User_type_eqb (type u) CONSUMER)
  | None => throw TypeError
  end.

(** [req.params.userId == req.user.id] *)
Definition isOwner (req : Request) (u : option User) : M bool :=
  match u with
  | Some u => ret (JS.loose_eq_number (params req !! "userId") (JS.of_Z (id u)))
  | None => throw TypeError
  end.

(** [req.body.hasOwnProperty(name)].  The method is looked up on the body
    first: a body with a field of its own called [hasOwnProperty] holds
    there a JSON value, which is not callable, and the call throws. *)
Definition hasOwnProperty (o : gmap string JS.Value) (name : string) : M bool :=
  match o !! "hasOwnProperty" with
  | Some _ => throw TypeError
  | None =>
      ret match o !! name with
          | Some _ => true
          | None => false
          end
  end.

(** [req.body.type == "ADMINISTRATOR"] *)
Definition typeIsAdministrator (req : Request) : M bool :=
  match JS.loose_eq_string (body req !! "type") "ADMINISTRATOR" with
  | Some b => ret b
  | None => throw TypeError
  end.

(** How a [case] of the switch ends: [return next()] leaves the function,
    [break] goes on to the statement after the switch. *)
Inductive Flow : Type :=
| Return
| Break.

Definition return_next : M Flow := emit Next ;; ret Return.

Definition break : M Flow := ret Break.

(** [if (c) return next()] followed by [break] *)
Definition next_if (c : M bool) : M Flow :=
  ok <- c ;; if ok then return_next else break.

(** Two statements in a row: the second runs unless the first returned. *)
Definition and_then (first second : M Flow) : M Flow :=
  flow <- first ;;
  match flow with
  | Return => ret Return
  | Break => second
  end.

Definition insufficient_permissions : Payload :=
  Message "Insufficient permissions for specified resource.".

Definition incomingRoute (req : Request) : string :=
  String.append (baseUrl req) (route_path req).

(** The [switch] of [check]. *)
Definition dispatch (w : Collaborators) (req : Request) : M Flow :=
  let intent := method req in
  match resourceIdentification !! incomingRoute req with
  | Some ALL_USERS =>
      if String.eqb intent "POST" then
        administrator <- typeIsAdministrator req ;;
        if administrator : bool then
          authentication.check w resolve ;;
          await_promise ;;
          u <- get_user ;;
          next_if (isAdministrator u)
        else return_next
      else
        u <- get_user ;;
        next_if (isAdministrator u)
  | Some SINGLE_USER =>
      u <- get_user ;;
      typeChange <-
        andM (ret (String.eqb intent "PUT"))
             (hasOwnProperty (body req) "type") ;;
      if typeChange then next_if (isAdministrator u)
      else next_if (orM (isOwner req u) (isAdministrator u))
  | Some SINGLE_ADDRESS =>
      u <- get_user ;;
      admin <- isAdministrator u ;;
      if admin then return_next
      else
        userAddressIDs <-
          match u with
          | Some u => ret (map (fun addressObject =>
                                  JS.of_Z (address_id addressObject))
                               (Address u))
          | None => throw TypeError
          end ;;
        next_if
          (andM (isOwner req u)
                (ret (JS.includes userAddressIDs
                        (JS.ToNumber (params req !! "addressId")))))
  | Some ALL_ADDRESSES =>
      u <- get_user ;;
      next_if (orM (isOwner req u) (isAdministrator u))
  | Some ALL_NOTIFICATIONS =>
      u <- get_user ;;
      and_then
        (if String.eqb intent "GET"
         then next_if (orM (isOwner req u) (isAdministrator u))
         else break)
        (if String.eqb intent "PUT" then next_if (isOwner req u)
         else break)
  | Some SINGLE_NOTIFICATION =>
      u <- get_user ;;
      if String.eqb intent "PUT" then next_if (isOwner req u)
      else break
  | Some ALL_USER_ORDERS =>
      u <- get_user ;;
      if String.eqb intent "POST" then
        next_if (andM (isOwner req u) (isConsumer u))
      else if String.eqb intent "GET" then
        next_if (orM (isOwner req u) (isAdministrator u))
      else break
  | Some ALL_ORDERS => return_next
  | Some SINGLE_ORDER =>
      if String.eqb intent "GET" then
        u <- get_user ;;
        emit (OrderQuery u (params req !! "orderId")) ;;
        isRelated <-
          await (checkUserOrderRelationship w u (params req !! "orderId")) ;;
        if isRelated : bool then return_next else break
      else break
  | Some SINGLE_ORDER_ITEM =>
      if String.eqb intent "PUT" then
        u <- get_user ;;
        emit (OrderQuery u (params req !! "orderId")) ;;
        isRelatedToOrder <-
          await (checkUserOrderRelationship w u (params req !! "orderId")) ;;
        if isRelatedToOrder : bool then
          emit (ItemQuery u (params req !! "orderId")
                            (params req !! "itemId")) ;;
          isRelatedToItem <-
            await (checkUserItemRelationship w u
                     (params req !! "orderId") (params req !! "itemId")) ;;
          if isRelatedToItem : bool then return_next else break
        else break
      else break
  | Some ALL_CATEGORIES =>
      u <- get_user ;;
      next_if (isAdministrator u)
  | Some SINGLE_CATEGORY =>
      u <- get_user ;;
      next_if (isAdministrator u)
  | Some ALL_CART_ITEMS =>
      u <- get_user ;;
      next_if (andM (isOwner req u) (isConsumer u))
  | Some SINGLE_CART_ITEM =>
      u <- get_user ;;
      next_if (andM (isOwner req u) (isConsumer u))
  | Some ALL_WISHLIST_ITEMS =>
      u <- get_user ;;
      next_if (andM (isOwner req u) (isConsumer u))
  | Some SINGLE_WISHLIST_ITEM =>
      u <- get_user ;;
      next_if (andM (isOwner req u) (isConsumer u))
  | Some SINGLE_PRODUCT | None => break
  end.

(** [check(req, res, next)] *)
Definition check (w : Collaborators) (req : Request) : M unit :=
  flow <- dispatch w req ;;
  match flow with
  | Return => ret tt
  | Break => send 403 insufficient_permissions
  end.

End authorization.

(** The state on entry and a whole run of the authorization middleware. *)
Definition initial (req : Request) : State :=
  {| req_user := user req; resolved := false; trace := [] |}.

Definition run (w : Collaborators) (req : Request) : Completion unit * State :=
  authorization.check w req (initial req).

(** ** What a run means for the request *)

(** The request is handed on: [next()] was called. *)
Definition allows (r : Completion unit * State) : Prop :=
  In Next (trace (snd r)).

(** The request is denied: the middleware returned, without calling
    [next()], after sending the 403 rejection. *)
Definition denies (r : Completion unit * State) : Prop :=
  fst r = Returned tt /\
  ~ In Next (trace (snd r)) /\
  In (Send 403 authorization.insufficient_permissions) (trace (snd r)).

(** The middleware returned without handing the request on, whatever it
    answered. *)
Definition refuses (r : Completion unit * State) : Prop :=
  fst r = Returned tt /\ ~ In Next (trace (snd r)).

(** The responses sent in the course of a run. *)
Definition responses (t : list Effect) : list (Z * Payload) :=
  flat_map (fun e => match e with
                     | Send status payload => [(status, payload)]
                     | _ => []
                     end) t.

(** The route template of the request maps to kind [k] in the table. *)
Definition classified (req : Request) (k : authorization.ResourceKind) : Prop :=
  authorization.resourceIdentification !! authorization.incomingRoute req
  = Some k.

(** ** Vocabulary of the specification *)

Definition is_admin (u : User) : Prop := type u = ADMINISTRATOR.

Definition is_consumer (u : User) : Prop := type u = CONSUMER.

(** [routeParams.userId] equals the caller's id, as [==] compares them. *)
Definition owns (req : Request) (u : User) : Prop :=
  JS.loose_eq_number (params req !! "userId") (JS.of_Z (id u)) = true.

(** The numeric value of [routeParams.addressId] is among the ids of the
    caller's addresses, as [userAddressIDs.includes(Number(...))] tests. *)
Definition owns_address (req : Request) (u : User) : Prop :=
  JS.includes
    (map (fun addressObject => JS.of_Z (address_id addressObject)) (Address u))
    (JS.ToNumber (params req !! "addressId")) = true.

Definition cart_or_wishlist (k : authorization.ResourceKind) : Prop :=
  k = authorization.ALL_CART_ITEMS \/ k = authorization.SINGLE_CART_ITEM \/
  k = authorization.ALL_WISHLIST_ITEMS \/
  k = authorization.SINGLE_WISHLIST_ITEM.

(** The caller the bearer token resolves to: the token is accepted and its
    user id is found in the user table. *)
Definition authenticated_caller (w : Collaborators) : option User :=
  match jwt w with
  | JwtUser tokenUser_id =>
      match findUnique w tokenUser_id with
      | Resolves (Some u) => Some u
      | _ => None
      end
  | _ => None
  end.

(** What [req.body.type == "ADMINISTRATOR"] answers, [None] when it
    throws. *)
Definition type_is_administrator (req : Request) : option bool :=
  JS.loose_eq_string (body req !! "type") "ADMINISTRATOR".

(** The body has a field of its own called [hasOwnProperty]. *)
Definition shadows_hasOwnProperty (req : Request) : Prop :=
  is_Some (body req !! "hasOwnProperty").

(** The bytes of the digits 0 to 9. *)
Definition is_digit (c : ascii) : Prop := 48 <= JS.code c <= 57.

(** The value of a decimal numeral: a string of one or more of the digits
    0 to 9 and nothing else. *)
Fixpoint numeral_value (s : string) (acc : Z) : option Z :=
  match s with
  | EmptyString => Some acc
  | String c rest =>
      if (48 <=? JS.code c) && (JS.code c <=? 57)
      then numeral_value rest (10 * acc + (JS.code c - 48))
      else None
  end.

Definition decimal_numeral (s : string) : option Z :=
  match s with
  | EmptyString => None
  | _ => numeral_value s 0
  end.

(** The query behind an effect of the trace rejected. *)
Definition failed (w : Collaborators) (e : Effect) : Prop :=
  match e with
  | FindUnique userId => findUnique w userId = Rejects
  | OrderQuery c o => checkUserOrderRelationship w c o = Rejects
  | ItemQuery c o i => checkUserItemRelationship w c o i = Rejects
  | Next | Send _ _ => False
  end.

(** A collaborator consulted in the course of the run failed. *)
Definition collaborator_failure
    (w : Collaborators) (r : Completion unit * State) : Prop :=
  exists e, In e (trace (snd r)) /\ failed w e.

(** The methods each [case] of the switch is written for, as its comments
    state them ("This is valid for: ..."); where a case has no such
    comment, the methods its branches test.  [ALL_USERS] has a rule for
    POST and one "for any other access"; [SINGLE_PRODUCT] has no case. *)
Definition valid_for (k : authorization.ResourceKind) (intent : string) : bool :=
  let among (l : list string) := existsb (String.eqb intent) l in
  match k with
  | authorization.ALL_USERS => true
  | authorization.SINGLE_USER => among ["GET"; "PUT"; "DELETE"]
  | authorization.ALL_ADDRESSES => among ["POST"]
  | authorization.SINGLE_ADDRESS => among ["PUT"; "DELETE"]
  | authorization.ALL_NOTIFICATIONS => among ["GET"; "PUT"]
  | authorization.SINGLE_NOTIFICATION => among ["PUT"]
  | authorization.ALL_USER_ORDERS => among ["POST"; "GET"]
  | authorization.SINGLE_PRODUCT => false
  | authorization.ALL_ORDERS => among ["GET"]
  | authorization.SINGLE_ORDER => among ["GET"]
  | authorization.SINGLE_ORDER_ITEM => among ["GET"; "PUT"]
  | authorization.ALL_CATEGORIES => among ["POST"]
  | authorization.SINGLE_CATEGORY => among ["PUT"; "DELETE"]
  | authorization.ALL_CART_ITEMS => among ["GET"; "POST"; "DELETE"]
  | authorization.SINGLE_CART_ITEM => among ["PUT"; "DELETE"]
  | authorization.ALL_WISHLIST_ITEMS => among ["GET"; "POST"; "DELETE"]
  | authorization.SINGLE_WISHLIST_ITEM => among ["DELETE"]
  end.

(** The kinds and methods for which the switch has no branch at all: the
    case tests the method and this one is not among those tested, or
    there is no case. *)
Definition no_branch (k : authorization.ResourceKind) (intent : string) : bool :=
  let among (l : list string) := existsb (String.eqb intent) l in
  match k with
  | authorization.ALL_NOTIFICATIONS => negb (among ["GET"; "PUT"])
  | authorization.SINGLE_NOTIFICATION => negb (among ["PUT"])
  | authorization.ALL_USER_ORDERS => negb (among ["POST"; "GET"])
  | authorization.SINGLE_ORDER => negb (among ["GET"])
  | authorization.SINGLE_ORDER_ITEM => negb (among ["PUT"])
  | authorization.SINGLE_PRODUCT => true
  | _ => false
  end.

(** The route template of each kind, the table read backwards. *)
Definition template (k : authorization.ResourceKind) : string :=
  match k with
  | authorization.ALL_USERS => "/user/"
  | authorization.SINGLE_USER => "/user/:userId"
  | authorization.ALL_ADDRESSES => "/user/:userId/addresses"
  | authorization.SINGLE_ADDRESS => "/user/:userId/addresses/:addressId"
  | authorization.ALL_NOTIFICATIONS => "/user/:userId/notifications"
  | authorization.SINGLE_NOTIFICATION =>
      "/user/:userId/notifications/:notificationId"
  | authorization.ALL_USER_ORDERS => "/user/:userId/orders"
  | authorization.SINGLE_PRODUCT => "/store/products/:productId"
  | authorization.ALL_ORDERS => "/store/orders"
  | authorization.SINGLE_ORDER => "/store/orders/:orderId"
  | authorization.SINGLE_ORDER_ITEM => "/store/orders/:orderId/:itemId"
  | authorization.ALL_CATEGORIES => "/store/categories"
  | authorization.SINGLE_CATEGORY => "/store/categories/:categoryId"
  | authorization.ALL_CART_ITEMS => "/user/:userId/cart"
  | authorization.SINGLE_CART_ITEM => "/user/:userId/cart/:index"
  | authorization.ALL_WISHLIST_ITEMS => "/user/:userId/wishlist"
  | authorization.SINGLE_WISHLIST_ITEM => "/user/:userId/wishlist/:productId"
  end.

(** ** Callers, worlds and requests used as examples *)

Definition consumer_5 : User :=
  {| id := 5; type := CONSUMER;
     Address := [ {| address_id := 9 |}; {| address_id := 12 |} ] |}.

Definition consumer_1 : User :=
  {| id := 1; type := CONSUMER; Address := [] |}.

Definition administrator_1 : User :=
  {| id := 1; type := ADMINISTRATOR; Address := [] |}.

(** No valid token; the relationship queries answer no. *)
Definition anonymous : Collaborators :=
  {| jwt := JwtNoUser;
     findUnique := fun _ => Resolves None;
     checkUserOrderRelationship := fun _ _ => Resolves false;
     checkUserItemRelationship := fun _ _ _ => Resolves false |}.

(** The token of administrator 1; the relationship queries answer yes. *)
Definition related : Collaborators :=
  {| jwt := JwtUser 1;
     findUnique := fun _ => Resolves (Some administrator_1);
     checkUserOrderRelationship := fun _ _ => Resolves true;
     checkUserItemRelationship := fun _ _ _ => Resolves true |}.

(** The relationship queries reject. *)
Definition oracle_down : Collaborators :=
  {| jwt := JwtUser 5;
     findUnique := fun _ => Resolves (Some consumer_5);
     checkUserOrderRelationship := fun _ _ => Rejects;
     checkUserItemRelationship := fun _ _ _ => Rejects |}.

(** DELETE /user/5/addresses/<addressId> by consumer 5. *)
Definition delete_address (addressId : string) : Request :=
  {| method := "DELETE";
     baseUrl := "/user";
     route_path := "/:userId/addresses/:addressId";
     params := {[ "userId" := "5"; "addressId" := addressId ]};
     body := ∅;
     user := Some consumer_5 |}.

(** POST /user/ with [{type: "ADMINISTRATOR"}], before any authentication. *)
Definition administrator_signup : Request :=
  {| method := "POST";
     baseUrl := "/user";
     route_path := "/";
     params := ∅;
     body := {[ "type" := JS.Str "ADMINISTRATOR" ]};
     user := None |}.

(** GET /store/orders/7 by consumer 5. *)
Definition get_order : Request :=
  {| method := "GET";
     baseUrl := "/store";
     route_path := "/orders/:orderId";
     params := {[ "orderId" := "7" ]};
     body := ∅;
     user := Some consumer_5 |}.

(** PUT /store/orders/7/3 by consumer 5. *)
Definition put_order_item : Request :=
  {| method := "PUT";
     baseUrl := "/store";
     route_path := "/orders/:orderId/:itemId";
     params := {[ "orderId" := "7"; "itemId" := "3" ]};
     body := ∅;
     user := Some consumer_5 |}.

(** DELETE /store/orders with no caller. *)
Definition delete_all_orders : Request :=
  {| method := "DELETE";
     baseUrl := "/store";
     route_path := "/orders";
     params := ∅;
     body := ∅;
     user := None |}.

(** GET /store/categories by administrator 1. *)
Definition get_categories : Request :=
  {| method := "GET";
     baseUrl := "/store";
     route_path := "/categories";
     params := ∅;
     body := ∅;
     user := Some administrator_1 |}.

(** GET /store/categories with no caller. *)
Definition get_categories_anonymously : Request :=
  {| method := "GET";
     baseUrl := "/store";
     route_path := "/categories";
     params := ∅;
     body := ∅;
     user := None |}.

(** GET /store/products/4 by administrator 1. *)
Definition get_product : Request :=
  {| method := "GET";
     baseUrl := "/store";
     route_path := "/products/:productId";
     params := {[ "productId" := "4" ]};
     body := ∅;
     user := Some administrator_1 |}.

(** GET /user/5 by consumer 5. *)
Definition get_own_account : Request :=
  {| method := "GET";
     baseUrl := "/user";
     route_path := "/:userId";
     params := {[ "userId" := "5" ]};
     body := ∅;
     user := Some consumer_5 |}.

(** PUT /user/5 with [{type: "SUPPLIER"}] by consumer 5. *)
Definition change_own_type : Request :=
  {| method := "PUT";
     baseUrl := "/user";
     route_path := "/:userId";
     params := {[ "userId" := "5" ]};
     body := {[ "type" := JS.Str "SUPPLIER" ]};
     user := Some consumer_5 |}.

(** POST /user/ with [{type: "CONSUMER"}], before any authentication. *)
Definition consumer_signup : Request :=
  {| method := "POST";
     baseUrl := "/user";
     route_path := "/";
     params := ∅;
     body := {[ "type" := JS.Str "CONSUMER" ]};
     user := None |}.

(** POST /user/ with [{type: {toString: 1}}], before any authentication. *)
Definition unconvertible_signup : Request :=
  {| method := "POST";
     baseUrl := "/user";
     route_path := "/";
     params := ∅;
     body := {[ "type" := JS.Unconvertible ]};
     user := None |}.

(** PUT /user/5 with [{hasOwnProperty: 1}] by consumer 5. *)
Definition put_shadowed_body : Request :=
  {| method := "PUT";
     baseUrl := "/user";
     route_path := "/:userId";
     params := {[ "userId" := "5" ]};
     body := {[ "hasOwnProperty" := JS.Num (JS.of_Z 1) ]};
     user := Some consumer_5 |}.

(** PUT /user/5 with [{type: "SUPPLIER", hasOwnProperty: 1}] by
    administrator 1. *)
Definition role_change_shadowed_body : Request :=
  {| method := "PUT";
     baseUrl := "/user";
     route_path := "/:userId";
     params := {[ "userId" := "5" ]};
     body := {[ "type" := JS.Str "SUPPLIER";
                "hasOwnProperty" := JS.Num (JS.of_Z 1) ]};
     user := Some administrator_1 |}.

(** The route parameter [%C2%A09] once decoded: U+00A0, then the digit. *)
Definition nbsp_9 : string :=
  String (ascii_of_nat 194) (String (ascii_of_nat 160) "9").

(** GET /user/5/cart by consumer 5. *)
Definition consumer_reads_own_cart : Request :=
  {| method := "GET";
     baseUrl := "/user";
     route_path := "/:userId/cart";
     params := {[ "userId" := "5" ]};
     body := ∅;
     user := Some consumer_5 |}.

(** GET /user/1/cart by administrator 1. *)
Definition administrator_reads_own_cart : Request :=
  {| method := "GET";
     baseUrl := "/user";
     route_path := "/:userId/cart";
     params := {[ "userId" := "1" ]};
     body := ∅;
     user := Some administrator_1 |}.

(** A request of kind [k] with method [intent] by the owner named in the
    route: a consumer where the kind asks for one, else an administrator. *)
Definition probe (k : authorization.ResourceKind) (intent : string) : Request :=
  {| method := intent;
     baseUrl := template k;
     route_path := "";
     params := {[ "userId" := "1" ]};
     body := ∅;
     user := Some match k with
                  | authorization.ALL_USER_ORDERS
                  | authorization.ALL_CART_ITEMS
                  | authorization.SINGLE_CART_ITEM
                  | authorization.ALL_WISHLIST_ITEMS
                  | authorization.SINGLE_WISHLIST_ITEM => consumer_1
                  | _ => administrator_1
                  end |}.

(** ** Further vocabulary: the rules of the other cases *)

(** The kinds, with their methods, that only administrators pass. *)
Definition administrators_only
    (req : Request) (k : authorization.ResourceKind) : Prop :=
  k = authorization.ALL_CATEGORIES \/ k = authorization.SINGLE_CATEGORY \/
  (k = authorization.ALL_USERS /\ method req <> "POST").

(** The kinds whose route names a user ([/user/:userId...]). *)
Definition user_scoped (k : authorization.ResourceKind) : Prop :=
  In k [authorization.SINGLE_USER; authorization.ALL_ADDRESSES;
        authorization.SINGLE_ADDRESS; authorization.ALL_NOTIFICATIONS;
        authorization.SINGLE_NOTIFICATION; authorization.ALL_USER_ORDERS;
        authorization.ALL_CART_ITEMS; authorization.SINGLE_CART_ITEM;
        authorization.ALL_WISHLIST_ITEMS;
        authorization.SINGLE_WISHLIST_ITEM].

(** The kinds whose case never looks at [req.method]. *)
Definition method_blind (k : authorization.ResourceKind) : Prop :=
  In k [authorization.ALL_ADDRESSES; authorization.SINGLE_ADDRESS;
        authorization.ALL_ORDERS; authorization.ALL_CATEGORIES;
        authorization.SINGLE_CATEGORY; authorization.ALL_CART_ITEMS;
        authorization.SINGLE_CART_ITEM; authorization.ALL_WISHLIST_ITEMS;
        authorization.SINGLE_WISHLIST_ITEM].

Definition is_Next (e : Effect) : bool :=
  match e with
  | Next => true
  | _ => false
  end.

(** How often [next()] was called. *)
Definition handed_on (t : list Effect) : nat := length (filter is_Next t).

(** The cases, with their methods, that read [req.user] as the request
    brought it. *)
Definition reads_caller (k : authorization.ResourceKind) (intent : string) : bool :=
  match k with
  | authorization.ALL_USERS => negb (String.eqb intent "POST")
  | authorization.ALL_ORDERS | authorization.SINGLE_ORDER
  | authorization.SINGLE_ORDER_ITEM => false
  | _ => negb (no_branch k intent)
  end.

(** The requests whose case asks a collaborator: the sign-up of an
    administrator and the two relationship-gated rules. *)
Definition consults (req : Request) : bool :=
  match authorization.resourceIdentification
          !! authorization.incomingRoute req with
  | Some authorization.ALL_USERS =>
      String.eqb (method req) "POST"
      && match type_is_administrator req with
         | Some administrator => administrator
         | None => false
         end
  | Some authorization.SINGLE_ORDER => String.eqb (method req) "GET"
  | Some authorization.SINGLE_ORDER_ITEM => String.eqb (method req) "PUT"
  | _ => false
  end.

(** The requests whose case reads [req.body]. *)
Definition reads_body (req : Request) : bool :=
  match authorization.resourceIdentification
          !! authorization.incomingRoute req with
  | Some authorization.ALL_USERS => String.eqb (method req) "POST"
  | Some authorization.SINGLE_USER => String.eqb (method req) "PUT"
  | _ => false
  end.

(** The same request with another method, and with another body. *)
Definition with_method (intent : string) (req : Request) : Request :=
  {| method := intent; baseUrl := baseUrl req; route_path := route_path req;
     params := params req; body := body req; user := user req |}.

Definition with_body (b : gmap string JS.Value) (req : Request) : Request :=
  {| method := method req; baseUrl := baseUrl req;
     route_path := route_path req; params := params req; body := b;
     user := user req |}.

(** Whether an effect is a query to a collaborator. *)
Definition is_query (e : Effect) : bool :=
  match e with
  | FindUnique _ | OrderQuery _ _ | ItemQuery _ _ _ => true
  | Next | Send _ _ => false
  end.

(** A consumer who is not the user the routes of [probe] name. *)
Definition consumer_2 : User :=
  {| id := 2; type := CONSUMER; Address := [] |}.

(** The request [probe k intent] made by [u]. *)
Definition probe_by (u : option User) (k : authorization.ResourceKind)
    (intent : string) : Request :=
  {| method := intent; baseUrl := template k; route_path := "";
     params := {[ "userId" := "1"; "orderId" := "7" ]};
     body := ∅; user := u |}.

(** The user lookups [authentication.check] makes: one when passport
    accepted the token, none otherwise. *)
Definition lookups (w : Collaborators) : list Effect :=
  match jwt w with
  | JwtUser tokenUser_id => [FindUnique tokenUser_id]
  | JwtError | JwtNoUser => []
  end.

(** The state [authentication.check] leaves when it accepts the caller [u],
    before it calls [next()]. *)
Definition authenticated (w : Collaborators) (u : User) (s : State) : State :=
  {| req_user := Some u; resolved := resolved s;
     trace := trace s ++ lookups w |}.

(** The token of user 5, whose lookup fails. *)
Definition store_down : Collaborators :=
  {| jwt := JwtUser 5;
     findUnique := fun _ => Rejects;
     checkUserOrderRelationship := fun _ _ => Resolves true;
     checkUserItemRelationship := fun _ _ _ => Resolves true |}.

(** ** The rest of persistence.js

    The functions of the persistence library that write to the database,
    with the Prisma client, the geocoding client and bcrypt as
    collaborators. *)

(** A JSON value, as a request body or a database row holds it.  The
    fields of an object are listed once each, in the order
    [Object.entries] gives them. *)
#[warnings="-register-all"]
Inductive Json : Type :=
| JNull
| JBool (b : bool)
| JNum (n : JS.Number)
| JStr (s : string)
| JArr (items : list Json)
| JObj (fields : list (string * Json)).

Module Task.

(** What an asynchronous function of the library can throw: a reference
    to a variable that is declared nowhere, a property read on [null] or
    [undefined], or the rejection of a call it awaited. *)
Inductive Error : Type :=
| ReferenceError
| TypeError
| CallFailed.

Inductive Result (A : Type) : Type :=
| Value (a : A)
| Raised (e : Error).
Arguments Value {A} a.
Arguments Raised {A} e.

(** A computation that logs the calls it makes, of type [C], and may
    throw. *)
Definition T (C A : Type) : Type := list C -> Result A * list C.

Definition ret {C A} (a : A) : T C A := fun log => (Value a, log).

Definition bind {C A B} (m : T C A) (k : A -> T C B) : T C B :=
  fun log =>
    match m log with
    | (Value a, log') => k a log'
    | (Raised e, log') => (Raised e, log')
    end.

Definition raise {C A} (e : Error) : T C A := fun log => (Raised e, log).

(** [try { m } catch (e) { h }] *)
Definition try_catch {C A} (m h : T C A) : T C A :=
  fun log =>
    match m log with
    | (Raised _, log') => h log'
    | r => r
    end.

(** Records the call [c] and awaits its answer [r]. *)
Definition call {C A} (c : C) (r : Awaited A) : T C A :=
  fun log =>
    match r with
    | Resolves a => (Value a, (log ++ [c])%list)
    | Rejects => (Raised CallFailed, (log ++ [c])%list)
    end.

End Task.

Declare Scope task_scope.
Delimit Scope task_scope with task.
Notation "x <- m ;; k" := (Task.bind m (fun x => k))
  (at level 100, m at next level, right associativity) : task_scope.
Notation "m ;; k" := (Task.bind m (fun _ => k))
  (at level 100, right associativity) : task_scope.

Module Persistence.

(** The data of a [create] call: the fields of the object literal, in its
    order, [None] for [undefined]. *)
Abbreviation Fields := (list (string * option Json)).

(** A coordinate as the address functions store it: the number [0], or
    [roundCoordinates(value, roundingPrecision)] for a geocoded [value]
    (the rounding itself, floating-point arithmetic on strings, is not
    computed). *)
Inductive Coordinate : Type :=
| Zero
| Rounded (value : JS.Number).

Record Location : Type := { lat : JS.Number; lng : JS.Number }.

(** The row [prisma.user.create] returns, with the columns read. *)
Record UserRow : Type := { row_id : Z; row_type : string }.

(** The row [prisma.address.update] returns, with the columns read. *)
Record AddressRow : Type := {
  row_street : string;
  row_city : string;
  row_country : string
}.

(** The calls the functions make, with their arguments. *)
Inductive Call : Type :=
| user_create (data : Fields)
| credentials_create (id : Z) (provider value : string)
| address_create (data : Fields) (latitude longitude : Coordinate)
| company_create (data : Fields)
| user_update (where_id : option Json) (data : list (string * Json))
| user_set_company (where_id company : Z)
| user_delete (where_id : option Json)
| address_deleteMany (where_user : option Json)
| user_findUnique (field : string) (value : option Json)
| address_updateMany (where_user : option Json) (field : string)
| address_update (where_id : option Json) (data : list (string * Json))
| address_set_coordinates (where_id : option Json)
    (latitude longitude : Coordinate)
| geocode (address : string)
| hashSync (data : option Json).

(** What the collaborators answer to each call.  [geocode] answers
    [results[0].geometry.location], or [None] when there is no result. *)
Record World : Type := {
  on_user_create : Fields -> Awaited UserRow;
  on_credentials_create : Z -> string -> string -> Awaited unit;
  on_address_create : Fields -> Coordinate -> Coordinate -> Awaited Z;
  on_company_create : Fields -> Awaited Z;
  on_user_update : option Json -> list (string * Json) -> Awaited Json;
  on_user_set_company : Z -> Z -> Awaited UserRow;
  on_user_delete : option Json -> Awaited unit;
  on_address_deleteMany : option Json -> Awaited unit;
  on_user_findUnique : string -> option Json -> Awaited (option Json);
  on_address_updateMany : option Json -> string -> Awaited unit;
  on_address_update :
    option Json -> list (string * Json) -> Awaited AddressRow;
  on_address_set_coordinates :
    option Json -> Coordinate -> Coordinate -> Awaited AddressRow;
  on_geocode : string -> Awaited (option Location);
  on_hashSync : option Json -> Awaited string
}.

Local Open Scope task_scope.

Abbreviation Task := (Task.T Call).

(** [o[k]] for an object given by its fields. *)
Fixpoint field (fields : list (string * Json)) (k : string) : option Json :=
  match fields with
  | [] => None
  | (k', v) :: rest => if String.eqb k' k then Some v else field rest k
  end.

(** [v.k]: reading a property of [undefined] or [null] throws; a value
    that is not an object has none of the properties read here. *)
Definition member (v : option Json) (k : string) : Task (option Json) :=
  match v with
  | None | Some JNull => Task.raise Task.TypeError
  | Some (JObj fields) => Task.ret (field fields k)
  | Some _ => Task.ret None
  end.

(** [o[k] = v] on an object given by its fields. *)
Fixpoint assign (fields : list (string * Json)) (k : string) (v : Json)
  : list (string * Json) :=
  match fields with
  | [] => [(k, v)]
  | (k', v') :: rest =>
      if String.eqb k' k then (k', v) :: rest
      else (k', v') :: assign rest k v
  end.

(** Whether [if (v)] takes the branch. *)
Definition truthy (v : option Json) : bool :=
  match v with
  | None | Some JNull => false
  | Some (JBool b) => b
  | Some (JNum n) =>
      match n with
      | JS.NaN => false
      | JS.Finite m _ => negb (m =? 0)
      | JS.Infinity _ => true
      end
  | Some (JStr s) => negb (String.eqb s "")
  | Some (JArr _) | Some (JObj _) => true
  end.

(** The decimal numeral of an index. *)
Definition index_key (i : nat) : string :=
  NilEmpty.string_of_uint (Nat.to_uint i).

Fixpoint indexed {A} (i : nat) (l : list A) : list (string * A) :=
  match l with
  | [] => []
  | x :: rest => (index_key i, x) :: indexed (S i) rest
  end.

(** [Object.entries(v)]: throws on [undefined] and [null]; the fields of
    an object, the indexed items of an array, the indexed characters of a
    string, nothing for a number or a boolean. *)
Definition entries (v : option Json) : Task (list (string * Json)) :=
  match v with
  | None | Some JNull => Task.raise Task.TypeError
  | Some (JObj fields) => Task.ret fields
  | Some (JArr items) => Task.ret (indexed 0 items)
  | Some (JStr s) =>
      Task.ret (indexed 0 (map (fun c => JStr (String c EmptyString))
                             (list_ascii_of_string s)))
  | Some (JNum _) | Some (JBool _) => Task.ret []
  end.

(** The members every object literal inherits from [Object.prototype],
    with the string each one gives when used as a property key. *)
Definition Object_prototype : list (string * string) :=
  [ ("constructor", "function Object() { [native code] }");
    ("__defineGetter__", "function __defineGetter__() { [native code] }");
    ("__defineSetter__", "function __defineSetter__() { [native code] }");
    ("hasOwnProperty", "function hasOwnProperty() { [native code] }");
    ("__lookupGetter__", "function __lookupGetter__() { [native code] }");
    ("__lookupSetter__", "function __lookupSetter__() { [native code] }");
    ("isPrototypeOf", "function isPrototypeOf() { [native code] }");
    ("propertyIsEnumerable",
     "function propertyIsEnumerable() { [native code] }");
    ("toString", "function toString() { [native code] }");
    ("valueOf", "function valueOf() { [native code] }");
    ("__proto__", "[object Object]");
    ("toLocaleString", "function toLocaleString() { [native code] }") ].

Fixpoint assoc (table : list (string * string)) (k : string) : option string :=
  match table with
  | [] => None
  | (k', v) :: rest => if String.eqb k' k then Some v else assoc rest k
  end.

(** For a key map given by its own entries: [keyMap[key]] as a property
    key when [key in keyMap], own entries first, then inherited ones. *)
Definition mapped (keyMap : list (string * string)) (key : string)
  : option string :=
  match assoc keyMap key with
  | Some target => Some target
  | None => assoc Object_prototype key
  end.

(** The loop [for (const [key, value] of Object.entries(params)) if (key
    in keyMap) selection[keyMap[key]] = value], the value first passed
    through [convert]. *)
Fixpoint select (keyMap : list (string * string))
    (convert : string -> Json -> Task Json)
    (params selection : list (string * Json)) : Task (list (string * Json)) :=
  match params with
  | [] => Task.ret selection
  | (key, value) :: rest =>
      match mapped keyMap key with
      | Some target =>
          v <- convert key value ;;
          select keyMap convert rest (assign selection target v)
      | None => select keyMap convert rest selection
      end
  end.

Definition saltRounds : Z := 10.

(** The free variable [geocoded] of [createUser]: no declaration of that
    name is in scope there (the two [const geocoded] of the file are local
    to blocks of [createAddress] and [updateAddress]), so reading it
    throws. *)
Definition geocoded : Task Location := Task.raise Task.ReferenceError.

(** [createUser(params)], returning the [id] of [{id: newUser.id}], or
    [None] for [null]. *)
Definition createUser (w : World) (params : list (string * Json))
  : Task (option Z) :=
  Task.try_catch
    (let user_data : Fields :=
       [ ("first_name", field params "first_name");
         ("last_name", field params "last_name");
         ("email", field params "email");
         ("phone", field params "phone");
         ("type", field params "type") ] in
     newUser <- Task.call (user_create user_data)
                  (on_user_create w user_data) ;;
     hash <- Task.call (hashSync (field params "password"))
               (on_hashSync w (field params "password")) ;;
     Task.call (credentials_create (row_id newUser) "local" hash)
       (on_credentials_create w (row_id newUser) "local" hash) ;;
     street <- member (field params "address") "street" ;;
     country <- member (field params "address") "country" ;;
     city <- member (field params "address") "city" ;;
     location <- geocoded ;;
     postal_code <- member (field params "address") "postal_code" ;;
     let address_data : Fields :=
       [ ("street", street); ("country", country); ("city", city);
         ("postal_code", postal_code) ] in
     Task.call
       (address_create address_data (Rounded (lat location))
          (Rounded (lng location)))
       (on_address_create w address_data (Rounded (lat location))
          (Rounded (lng location))) ;;
     newUser <-
       (if existsb (String.eqb (row_type newUser)) ["TRANSPORTER"; "SUPPLIER"]
        then
          name <- member (field params "company") "name" ;;
          bio <- member (field params "company") "bio" ;;
          email <- member (field params "company") "email" ;;
          let company_data : Fields :=
            [ ("name", name); ("bio", bio); ("email", email) ] in
          newCompany <- Task.call (company_create company_data)
                          (on_company_create w company_data) ;;
          Task.call (user_set_company (row_id newUser) newCompany)
            (on_user_set_company w (row_id newUser) newCompany)
        else Task.ret newUser) ;;
     Task.ret (Some (row_id newUser)))
    (Task.ret None).

(** [getUserByID(id)] called without [await]: the query is started, and
    the value at hand is the promise, which [if] takes for true whatever
    it will hold. *)
Definition getUserByID_promise (w : World) (userId : option Json) : Task bool :=
  Task.try_catch
    (Task.call (user_findUnique "id" userId)
       (on_user_findUnique w "id" userId) ;;
     Task.ret true)
    (Task.ret true).

(** [deleteUser(id)] *)
Definition deleteUser (w : World) (userId : option Json) : Task bool :=
  Task.try_catch
    (found <- getUserByID_promise w userId ;;
     if found then
       Task.call (user_delete userId) (on_user_delete w userId) ;;
       Task.call (address_deleteMany userId)
         (on_address_deleteMany w userId) ;;
       Task.ret true
     else Task.ret false)
    (Task.ret false).

(** What [checkUserConflict] returns: the value of [result], never
    assigned ([undefined]) or assigned the answer of the query, or the
    [null] of the [catch]. *)
Inductive Conflict : Type :=
| Undefined
| Found (row : option Json)
| Null.

(** [checkUserConflict(attribute, value)] *)
Definition checkUserConflict (w : World) (attribute : string)
    (value : option Json) : Task Conflict :=
  Task.try_catch
    (if String.eqb attribute "id" then
       result <- Task.call (user_findUnique "id" value)
                   (on_user_findUnique w "id" value) ;;
       Task.ret (Found result)
     else if String.eqb attribute "email" then
       result <- Task.call (user_findUnique "email" value)
                   (on_user_findUnique w "email" value) ;;
       Task.ret (Found result)
     else Task.ret Undefined)
    (Task.ret Null).

(** The template [`${street}, ${city}, ${country}`]. *)
Definition address_line (street city country : string) : string :=
  String.append street
    (String.append ", " (String.append city (String.append ", " country))).

(** The geocoding step of [createAddress]: the two rounded coordinates,
    or [0] and [0] when the call fails or finds nothing. *)
Definition locate (w : World) (line : string)
  : Task (Coordinate * Coordinate) :=
  Task.try_catch
    (found <- Task.call (geocode line) (on_geocode w line) ;;
     match found with
     | Some location =>
         Task.ret (Rounded (lat location), Rounded (lng location))
     | None => Task.raise Task.TypeError
     end)
    (Task.ret (Zero, Zero)).

(** [createAddress(userID, street, city, country, postal_code, nif)],
    returning the [id] of [{id: newAddress.id}], or [None] for [null]. *)
Definition createAddress (w : World) (userID : option Json)
    (street city country : string) (postal_code nif : option Json)
  : Task (option Z) :=
  coordinates <- locate w (address_line street city country) ;;
  let data : Fields :=
    [ ("user", userID); ("nif", nif); ("street", Some (JStr street));
      ("city", Some (JStr city)); ("country", Some (JStr country));
      ("postal_code", postal_code) ] in
  Task.try_catch
    (newAddress <- Task.call
                     (address_create data (fst coordinates) (snd coordinates))
                     (on_address_create w data (fst coordinates)
                        (snd coordinates)) ;;
     Task.ret (Some newAddress))
    (Task.ret None).

Definition addressKeyMap : list (string * string) :=
  [ ("street", "street"); ("city", "city"); ("postal_code", "postal_code");
    ("country", "country"); ("nif", "nif"); ("is_shipping", "is_shipping");
    ("is_billing", "is_billing") ].

(** What [updateAddress] returns: [return updateAddress] hands back the
    function itself; the [catch] returns [null]. *)
Inductive Updated : Type :=
| TheFunction
| NullUpdate.

(** [updateAddress(userId, addressId, params)] *)
Definition updateAddress (w : World) (userId addressId params : option Json)
  : Task Updated :=
  own <- entries params ;;
  addressDataSelection <-
    select addressKeyMap (fun _ value => Task.ret value) own [] ;;
  Task.try_catch
    ((if truthy (field addressDataSelection "is_shipping") then
        Task.call (address_updateMany userId "is_shipping")
          (on_address_updateMany w userId "is_shipping")
      else Task.ret tt) ;;
     (if truthy (field addressDataSelection "is_billing") then
        Task.call (address_updateMany userId "is_billing")
          (on_address_updateMany w userId "is_billing")
      else Task.ret tt) ;;
     updatedAddress <-
       Task.call (address_update addressId addressDataSelection)
         (on_address_update w addressId addressDataSelection) ;;
     coordinates <-
       Task.try_catch
         (found <-
            Task.call
              (geocode (address_line (row_street updatedAddress)
                          (row_city updatedAddress)
                          (row_country updatedAddress)))
              (on_geocode w (address_line (row_street updatedAddress)
                               (row_city updatedAddress)
                               (row_country updatedAddress))) ;;
          match found with
          | Some location =>
              Task.ret (Rounded (lat location), Rounded (lng location))
          | None => Task.raise Task.TypeError
          end)
         (Task.ret (Zero, Zero)) ;;
     Task.call
       (address_set_coordinates addressId (fst coordinates) (snd coordinates))
       (on_address_set_coordinates w addressId (fst coordinates)
          (snd coordinates)) ;;
     Task.ret TheFunction)
    (Task.ret NullUpdate).

Definition userKeyMap : list (string * string) :=
  [ ("first_name", "first_name"); ("last_name", "last_name");
    ("email", "email"); ("phone", "phone"); ("type", "type");
    ("new_password", "password") ].

Definition companyKeyMap : list (string * string) :=
  [ ("name", "name"); ("bio", "bio"); ("email", "email") ].



(** [array.slice(start, end)] for integer bounds: a negative bound counts
    from the end, and both are clamped to the array. *)
Definition slice {A} (array : list A) (start finish : Z) : list A :=
  let len := Z.of_nat (length array) in
  let clamp (i : Z) := if i <? 0 then Z.max (len + i) 0 else Z.min i len in
  let k := clamp start in
  firstn (Z.to_nat (Z.max (clamp finish - k) 0)) (skipn (Z.to_nat k) array).

(** The helper [manualPagination] of [getAllProducts]. *)
Definition manualPagination {A} (array : list A) (page_size page_number : Z)
  : list A :=
  slice array ((page_number - 1) * page_size) (page_number * page_size).

End Persistence.

(** Whether a call can come from the part of [createUser] that runs. *)
Definition account_call (c : Persistence.Call) : bool :=
  match c with
  | Persistence.user_create _ | Persistence.hashSync _
  | Persistence.credentials_create _ _ _ => true
  | _ => false
  end.

(** A world in which every call succeeds. *)
Definition all_well : Persistence.World :=
  {| Persistence.on_user_create :=
       fun _ => Resolves {| Persistence.row_id := 7;
                            Persistence.row_type := "SUPPLIER" |};
     Persistence.on_credentials_create := fun _ _ _ => Resolves tt;
     Persistence.on_address_create := fun _ _ _ => Resolves 3;
     Persistence.on_company_create := fun _ => Resolves 4;
     Persistence.on_user_update := fun _ _ => Resolves (JObj []);
     Persistence.on_user_set_company :=
       fun _ _ => Resolves {| Persistence.row_id := 7;
                              Persistence.row_type := "SUPPLIER" |};
     Persistence.on_user_delete := fun _ => Resolves tt;
     Persistence.on_address_deleteMany := fun _ => Resolves tt;
     Persistence.on_user_findUnique := fun _ _ => Resolves (Some (JObj []));
     Persistence.on_address_updateMany := fun _ _ => Resolves tt;
     Persistence.on_address_update :=
       fun _ _ => Resolves {| Persistence.row_street := "Rua A";
                              Persistence.row_city := "Porto";
                              Persistence.row_country := "Portugal" |};
     Persistence.on_address_set_coordinates :=
       fun _ _ _ => Resolves {| Persistence.row_street := "Rua A";
                                Persistence.row_city := "Porto";
                                Persistence.row_country := "Portugal" |};
     Persistence.on_geocode :=
       fun _ => Resolves (Some {| Persistence.lat := JS.of_Z 41;
                                  Persistence.lng := JS.of_Z (-8) |});
     Persistence.on_hashSync := fun _ => Resolves "$2b$10$hash" |}.

(** The same world with the geocoding service down. *)
Definition no_geocoding : Persistence.World :=
  {| Persistence.on_user_create := Persistence.on_user_create all_well;
     Persistence.on_credentials_create :=
       Persistence.on_credentials_create all_well;
     Persistence.on_address_create := Persistence.on_address_create all_well;
     Persistence.on_company_create := Persistence.on_company_create all_well;
     Persistence.on_user_update := Persistence.on_user_update all_well;
     Persistence.on_user_set_company :=
       Persistence.on_user_set_company all_well;
     Persistence.on_user_delete := Persistence.on_user_delete all_well;
     Persistence.on_address_deleteMany :=
       Persistence.on_address_deleteMany all_well;
     Persistence.on_user_findUnique := Persistence.on_user_findUnique all_well;
     Persistence.on_address_updateMany :=
       Persistence.on_address_updateMany all_well;
     Persistence.on_address_update := Persistence.on_address_update all_well;
     Persistence.on_address_set_coordinates :=
       Persistence.on_address_set_coordinates all_well;
     Persistence.on_geocode := fun _ => Rejects;
     Persistence.on_hashSync := Persistence.on_hashSync all_well |}.

(** The same world with the second deletion of [deleteUser] failing. *)
Definition addresses_locked : Persistence.World :=
  {| Persistence.on_user_create := Persistence.on_user_create all_well;
     Persistence.on_credentials_create :=
       Persistence.on_credentials_create all_well;
     Persistence.on_address_create := Persistence.on_address_create all_well;
     Persistence.on_company_create := Persistence.on_company_create all_well;
     Persistence.on_user_update := Persistence.on_user_update all_well;
     Persistence.on_user_set_company :=
       Persistence.on_user_set_company all_well;
     Persistence.on_user_delete := Persistence.on_user_delete all_well;
     Persistence.on_address_deleteMany := fun _ => Rejects;
     Persistence.on_user_findUnique := Persistence.on_user_findUnique all_well;
     Persistence.on_address_updateMany :=
       Persistence.on_address_updateMany all_well;
     Persistence.on_address_update := Persistence.on_address_update all_well;
     Persistence.on_address_set_coordinates :=
       Persistence.on_address_set_coordinates all_well;
     Persistence.on_geocode := Persistence.on_geocode all_well;
     Persistence.on_hashSync := Persistence.on_hashSync all_well |}.

(** A complete sign-up of a supplier. *)
Definition supplier_signup : list (string * Json) :=
  [ ("first_name", JStr "Ana"); ("last_name", JStr "Silva");
    ("email", JStr "ana@example.org"); ("phone", JStr "910000000");
    ("type", JStr "SUPPLIER"); ("password", JStr "secret");
    ("address", JObj [ ("street", JStr "Rua A"); ("country", JStr "Portugal");
                       ("city", JStr "Porto");
                       ("postal_code", JStr "4000-001") ]);
    ("company", JObj [ ("name", JStr "Horta"); ("bio", JStr "Legumes");
                       ("email", JStr "horta@example.org") ]) ].

(** Runs the code of a task as far as the known values allow. *)
Ltac texec :=
  unfold Persistence.member, Persistence.entries, Persistence.geocoded,
    Persistence.locate, Persistence.getUserByID_promise,
    Task.try_catch, Task.call, Task.bind, Task.ret, Task.raise;
  cbn.


(** The keys of an object given by its fields. *)
Definition keys (fields : list (string * Json)) : list string :=
  map fst fields.




(** An address update that makes the address the default for shipping. *)
Definition make_default_shipping : option Json :=
  Some (JObj [ ("street", JStr "Rua B"); ("is_shipping", JBool true) ]).

(** The world [all_well] with the update of one address failing. *)
Definition address_locked : Persistence.World :=
  {| Persistence.on_user_create := Persistence.on_user_create all_well;
     Persistence.on_credentials_create :=
       Persistence.on_credentials_create all_well;
     Persistence.on_address_create := Persistence.on_address_create all_well;
     Persistence.on_company_create := Persistence.on_company_create all_well;
     Persistence.on_user_update := Persistence.on_user_update all_well;
     Persistence.on_user_set_company :=
       Persistence.on_user_set_company all_well;
     Persistence.on_user_delete := Persistence.on_user_delete all_well;
     Persistence.on_address_deleteMany :=
       Persistence.on_address_deleteMany all_well;
     Persistence.on_user_findUnique := Persistence.on_user_findUnique all_well;
     Persistence.on_address_updateMany :=
       Persistence.on_address_updateMany all_well;
     Persistence.on_address_update := fun _ _ => Rejects;
     Persistence.on_address_set_coordinates :=
       Persistence.on_address_set_coordinates all_well;
     Persistence.on_geocode := Persistence.on_geocode all_well;
     Persistence.on_hashSync := Persistence.on_hashSync all_well |}.

(** ** Proof tools *)

(** Selects the [case] of the switch from the classification [H]. *)
Ltac enter H :=
  unfold run, authorization.check, authorization.dispatch, initial;
  unfold classified in H; rewrite H; clear H.

(** Runs the monadic code as far as the known values allow. *)
Ltac exec :=
  unfold authorization.next_if, authorization.and_then,
    authorization.return_next, authorization.break,
    authorization.isOwner, authorization.isAdministrator,
    authorization.isConsumer, authorization.hasOwnProperty,
    authorization.typeIsAdministrator, authentication.check,
    persistence.getUserByID, orM, andM, send, await_promise, await,
    try_catch, bind, ret, throw, emit, get_user, set_user, resolve;
  cbn.

(** Closes goals about the trace of a run that has been computed. *)
Ltac settle :=
  unfold allows, denies, refuses; cbn;
  repeat split; intros; try tauto; try congruence;
  intuition (try congruence; try discriminate).

(** Relates a caller found by name to the caller at hand. *)
Ltac same_caller :=
  try (eexists; split; [reflexivity | assumption]);
  match goal with
  | Hx : exists _, _ |- _ => destruct Hx as [? [[= <-] ?]]; congruence
  | Hx : Some _ = Some _ |- _ => inversion Hx; subst; congruence
  end.

(** Splits on every method test left in the hypothesis [H]. *)
Ltac split_methods H :=
  repeat match type of H with
    | context [String.eqb ?a ?b] => destruct (String.eqb a b); cbn in H
    end.

(** Settles the byte tests on a byte [c] known to be a digit. *)
Ltac digit_tests c :=
  repeat match goal with
    | |- context [Z.eqb (JS.code c) ?k] =>
        rewrite (proj2 (Z.eqb_neq (JS.code c) k)) by lia
    | |- context [Z.leb ?k (JS.code c)] =>
        first [ rewrite (proj2 (Z.leb_gt k (JS.code c))) by lia
              | rewrite (proj2 (Z.leb_le k (JS.code c))) by lia ]
    | |- context [Z.leb (JS.code c) ?k] =>
        first [ rewrite (proj2 (Z.leb_gt (JS.code c) k)) by lia
              | rewrite (proj2 (Z.leb_le (JS.code c) k)) by lia ]
    end;
  cbn [andb orb];
  repeat (rewrite ?andb_false_r, ?orb_false_r; cbn [andb orb]);
  try reflexivity.

(** Decides which key of a key map leads to a given target. *)
Ltac one_source :=
  let k := fresh "k" in
  intros k;
  unfold Persistence.mapped, Persistence.userKeyMap,
    Persistence.addressKeyMap, Persistence.companyKeyMap,
    Persistence.Object_prototype;
  cbn [Persistence.assoc];
  repeat match goal with
    | |- context [String.eqb ?a k] =>
        destruct (String.eqb_spec a k);
        [ subst k; cbn; split; intros; congruence | ]
    end; split; intros; congruence.

(** ** The fragment of JavaScript, on examples *)

Example number_of_decimal : JS.StringToNumber "9" = JS.Finite 9 0.
Proof. vm_compute. reflexivity. Qed.

Example number_of_padded_hex : JS.StringToNumber " 0x1F " = JS.Finite 31 0.
Proof. vm_compute. reflexivity. Qed.

Example number_of_empty : JS.StringToNumber "" = JS.Finite 0 0.
Proof. vm_compute. reflexivity. Qed.

Example number_of_word : JS.StringToNumber "abc" = JS.NaN.
Proof. vm_compute. reflexivity. Qed.

Example number_rounds_to_even :
  JS.StringToNumber "9007199254740993" = JS.Finite 1 53.
Proof. vm_compute. reflexivity. Qed.

Example number_of_tenth :
  JS.StringToNumber "0.1" = JS.Finite 3602879701896397 (-55).
Proof. vm_compute. reflexivity. Qed.

Example number_overflows : JS.StringToNumber "1e400" = JS.Infinity false.
Proof. vm_compute. reflexivity. Qed.

Example param_equals_id :
  JS.loose_eq_number (Some "5") (JS.of_Z 5) = true /\
  JS.loose_eq_number (Some "05.0") (JS.of_Z 5) = true /\
  JS.loose_eq_number (Some "6") (JS.of_Z 5) = false /\
  JS.loose_eq_number (Some "five") (JS.of_Z 5) = false /\
  JS.loose_eq_number None (JS.of_Z 5) = false.
Proof. vm_compute. tauto. Qed.

(** U+00A0 before the digits and U+FEFF after them are stripped as the
    blank is; a letter is not. *)
Example number_of_unicode_padded :
  JS.StringToNumber
    (String (ascii_of_nat 194) (String (ascii_of_nat 160) "9")) = JS.Finite 9 0 /\
  JS.StringToNumber
    (String "9" (String (ascii_of_nat 239) (String (ascii_of_nat 187)
       (String (ascii_of_nat 191) "")))) = JS.Finite 9 0 /\
  JS.StringToNumber "9a" = JS.NaN.
Proof. vm_compute. tauto. Qed.

Example array_equals_string :
  JS.loose_eq_string (Some (JS.Obj "ADMINISTRATOR")) "ADMINISTRATOR"
  = Some true /\
  JS.loose_eq_string (Some (JS.Str "CONSUMER")) "ADMINISTRATOR" = Some false /\
  JS.loose_eq_string (Some (JS.Num (JS.of_Z 0))) "ADMINISTRATOR" = Some false /\
  JS.loose_eq_string None "ADMINISTRATOR" = Some false /\
  JS.loose_eq_string (Some JS.Unconvertible) "ADMINISTRATOR" = None.
Proof. vm_compute. tauto. Qed.

(** ** The comparison of a route parameter with an id, on numerals *)

Lemma odd_part_spec (p : positive) (e : Z) :
  e <= snd (JS.odd_part p e) /\
  Zpos p = Zpos (fst (JS.odd_part p e)) * 2 ^ (snd (JS.odd_part p e) - e).
Proof.
  revert e. induction p as [p IH|p IH|]; intros e; cbn [JS.odd_part fst snd].
  - rewrite Z.sub_diag. cbn. lia.
  - destruct (IH (e + 1)) as [Hle Hv]. split; [ lia | ].
    replace (snd (JS.odd_part p (e + 1)) - e)
      with (1 + (snd (JS.odd_part p (e + 1)) - (e + 1))) by lia.
    rewrite Z.pow_add_r by lia. rewrite Pos2Z.inj_xO, Hv. ring.
  - rewrite Z.sub_diag. cbn. lia.
Qed.

(** [finite m e] is a finite number of the same value. *)
Lemma finite_spec (m e : Z) :
  exists m' e',
    JS.finite m e = JS.Finite m' e' /\
    ((m = 0 /\ m' = 0 /\ e' = 0) \/
     (m <> 0 /\ e <= e' /\ m = m' * 2 ^ (e' - e))).
Proof.
  destruct m as [|p|p]; cbn [JS.finite].
  - exists 0, 0. split; [ reflexivity | left; lia ].
  - destruct (odd_part_spec p e) as [Hle Hv].
    destruct (JS.odd_part p e) as [p' e'] eqn:E. cbn [fst snd] in *.
    exists (Zpos p'), e'. split; [ reflexivity | right ].
    split; [ lia | split; [ exact Hle | exact Hv ] ].
  - destruct (odd_part_spec p e) as [Hle Hv].
    destruct (JS.odd_part p e) as [p' e'] eqn:E. cbn [fst snd] in *.
    exists (Zneg p'), e'. split; [ reflexivity | right ].
    split; [ lia | split; [ exact Hle | ] ].
    rewrite <- !Pos2Z.opp_pos, Hv. ring.
Qed.

(** Two numbers built by [finite] are equal as their values are. *)
Lemma number_eqb_finite (a ea b eb : Z) :
  JS.number_eqb (JS.finite a ea) (JS.finite b eb)
  = (a * 2 ^ (ea - Z.min ea eb) =? b * 2 ^ (eb - Z.min ea eb)).
Proof.
  destruct (finite_spec a ea) as [a' [ea' [-> Ha]]].
  destruct (finite_spec b eb) as [b' [eb' [-> Hb]]].
  cbn [JS.number_eqb].
  set (e := Z.min ea eb). set (e' := Z.min ea' eb').
  assert (forall x, 0 <= x -> 0 < 2 ^ x) as Hpos
    by (intros; apply Z.pow_pos_nonneg; lia).
  apply eq_true_iff_eq. rewrite !Z.eqb_eq.
  destruct Ha as [[-> [-> ->]] | [Ha0 [Hea Ha]]];
    destruct Hb as [[-> [-> ->]] | [Hb0 [Heb Hb]]].
  - lia.
  - assert (b' <> 0) as Hb' by (intros ->; lia).
    pose proof (Hpos (eb' - e') ltac:(lia)).
    pose proof (Hpos (eb - e) ltac:(lia)). nia.
  - assert (a' <> 0) as Ha' by (intros ->; lia).
    pose proof (Hpos (ea' - e') ltac:(lia)).
    pose proof (Hpos (ea - e) ltac:(lia)). nia.
  - assert (a * 2 ^ (ea - e) = a' * 2 ^ (ea' - e') * 2 ^ (e' - e)) as ->.
    { rewrite Ha, <- !Z.mul_assoc, <- !Z.pow_add_r by lia.
      f_equal. f_equal. lia. }
    assert (b * 2 ^ (eb - e) = b' * 2 ^ (eb' - e') * 2 ^ (e' - e)) as ->.
    { rewrite Hb, <- !Z.mul_assoc, <- !Z.pow_add_r by lia.
      f_equal. f_equal. lia. }
    pose proof (Hpos (e' - e) ltac:(lia)). split; [ congruence | nia ].
Qed.

(** An integer below [2^53] is a binary64 number: rounding keeps it. *)
Lemma binary64_integer (n : Z) :
  0 <= n < 2 ^ 53 ->
  exists q, q <= 0 /\ JS.binary64 false n 1 = JS.finite (n * 2 ^ (- q)) q.
Proof.
  intros Hn. unfold JS.binary64.
  destruct (Z.eqb_spec n 0) as [->|Hn0].
  - exists 0. split; [ lia | reflexivity ].
  - assert (0 < n) as Hpos by lia.
    pose proof (Z.log2_spec n Hpos) as [Hlo Hhi].
    pose proof (Z.log2_nonneg n) as Hk.
    assert (Z.log2 n < 53) as Hk53 by (apply Z.log2_lt_pow2; lia).
    change (Z.log2 1) with 0. rewrite Z.sub_0_r.
    destruct (Z.leb_spec 0 (Z.log2 n)) as [_|]; [ | lia ].
    rewrite Z.mul_1_l.
    destruct (Z.ltb_spec n (2 ^ Z.log2 n)) as [|_]; [ lia | ].
    replace (Z.max (Z.log2 n - 52) (-1074)) with (Z.log2 n - 52) by lia.
    remember (Z.log2 n - 52) as q eqn:Eq. exists q. split; [ lia | ].
    assert (0 < 2 ^ (- q)) as Hp by (apply Z.pow_pos_nonneg; lia).
    assert (forall x, JS.round_half_even x 1 = x) as Hr
      by (intros; unfold JS.round_half_even;
          rewrite Z.div_1_r, Z.mod_1_r; reflexivity).
    destruct (Z.leb_spec 0 q) as [Hq|Hq].
    + assert (q = 0) as Hq0 by lia. clear Eq. subst q.
      change (- 0) with 0. change (2 ^ 0) with 1.
      rewrite !Z.mul_1_r, Hr. cbn [andb].
      destruct (Z.leb_spec (2 ^ 1024) n) as [Hbig|_]; [ | reflexivity ].
      assert (2 ^ 53 < 2 ^ 1024) by (apply Z.pow_lt_mono_r; lia). lia.
    + rewrite Hr. cbn [andb]. reflexivity.
Qed.

Lemma number_eqb_integer (n m : Z) :
  0 <= n < 2 ^ 53 ->
  JS.number_eqb (JS.binary64 false n 1) (JS.of_Z m) = (n =? m).
Proof.
  intros Hn. destruct (binary64_integer n Hn) as [q [Hq ->]].
  unfold JS.of_Z. rewrite number_eqb_finite.
  rewrite (Z.min_l q 0) by lia. rewrite Z.sub_diag.
  replace (0 - q) with (- q) by lia.
  change (2 ^ 0) with 1. rewrite Z.mul_1_r.
  assert (0 < 2 ^ (- q)) as Hp by (apply Z.pow_pos_nonneg; lia).
  apply eq_true_iff_eq. rewrite !Z.eqb_eq. split; [ nia | congruence ].
Qed.

Lemma drop_while_keep one two three (c : ascii) (t : list ascii) :
  one c = false ->
  (forall c2, two c c2 = false) ->
  (forall c2 c3, three c c2 c3 = false) ->
  JS.drop_while one two three (c :: t) = c :: t.
Proof.
  intros H1 H2 H3. cbn. rewrite H1.
  destruct t as [|c2 [|c3 t]]; rewrite ?H2, ?H3; reflexivity.
Qed.

Lemma trim_start_digit (c : ascii) (t : list ascii) :
  is_digit c -> JS.trim_start (c :: t) = c :: t.
Proof.
  unfold is_digit. intros H. apply drop_while_keep; intros;
    unfold JS.is_white_space, JS.is_white_space_2, JS.is_white_space_3;
    cbv zeta; digit_tests c.
Qed.

Lemma trim_end_digit (l : list ascii) (c : ascii) :
  is_digit c -> JS.trim_end (l ++ [c])%list = (l ++ [c])%list.
Proof.
  unfold is_digit, JS.trim_end. intros H. rewrite rev_app_distr. cbn [rev app].
  rewrite drop_while_keep.
  - cbn [rev]. rewrite rev_involutive. reflexivity.
  - unfold JS.is_white_space. cbv zeta. digit_tests c.
  - intros. unfold JS.is_white_space_2. digit_tests c.
  - intros. unfold JS.is_white_space_3. cbv zeta. digit_tests c.
Qed.

Lemma trim_digits (l : list ascii) :
  l <> [] -> Forall is_digit l -> JS.trim l = l.
Proof.
  intros Hne Hd. unfold JS.trim.
  destruct l as [|c t]; [ congruence | ].
  rewrite trim_start_digit by (inversion Hd; assumption).
  destruct (exists_last Hne) as [l' [c' E]]. rewrite E.
  apply trim_end_digit.
  rewrite E in Hd. apply Forall_app in Hd. destruct Hd as [_ Hd].
  inversion Hd; assumption.
Qed.

Lemma digit_in_digit (c : ascii) :
  is_digit c -> JS.digit_in 10 c = Some (JS.code c - 48).
Proof.
  unfold is_digit, JS.digit_in, JS.digit_value. intros H. cbv zeta.
  digit_tests c.
  destruct (Z.ltb_spec (JS.code c - 48) 10); [ reflexivity | lia ].
Qed.

(** A numeral is made of digits, and [digits] reads all of it to the same
    value. *)
Lemma numeral_value_digits (s : string) :
  forall acc cnt n,
    0 <= acc ->
    numeral_value s acc = Some n ->
    Forall is_digit (list_ascii_of_string s) /\
    acc <= n /\
    JS.digits 10 (list_ascii_of_string s) acc cnt
    = (n, cnt + Z.of_nat (String.length s), []).
Proof.
  induction s as [|c rest IH]; intros acc cnt n Hacc H; cbn in H.
  - injection H as <-. cbn [list_ascii_of_string JS.digits String.length].
    change (Z.of_nat 0) with 0. rewrite Z.add_0_r.
    split; [ constructor | split; [ lia | reflexivity ] ].
  - destruct (Z.leb_spec 48 (JS.code c)); [ | discriminate ].
    destruct (Z.leb_spec (JS.code c) 57); [ | discriminate ].
    cbn [andb] in H.
    assert (is_digit c) as Hc by (unfold is_digit; lia).
    destruct (IH (10 * acc + (JS.code c - 48)) (cnt + 1) n ltac:(lia) H)
      as [Hd [Hle Hv]].
    cbn [list_ascii_of_string JS.digits String.length].
    rewrite (digit_in_digit c Hc).
    replace (acc * 10 + (JS.code c - 48)) with (10 * acc + (JS.code c - 48))
      by ring.
    rewrite Hv. split; [ constructor; assumption | split; [ lia | ] ].
    f_equal. f_equal. lia.
Qed.

Lemma not_Infinity (c : ascii) (r : list ascii) :
  is_digit c ->
  String.eqb (string_of_list_ascii (c :: r)) "Infinity" = false.
Proof.
  unfold is_digit. intros H. cbn [string_of_list_ascii String.eqb].
  destruct (Ascii.eqb_spec c "I"%char) as [->|]; [ | reflexivity ].
  change (JS.code "I"%char) with 73 in H. lia.
Qed.

(** StringToNumber on a decimal numeral. *)
Lemma StringToNumber_numeral (s : string) (n : Z) :
  decimal_numeral s = Some n ->
  0 <= n /\ JS.StringToNumber s = JS.binary64 false n 1.
Proof.
  unfold decimal_numeral. destruct s as [|c rest]; [ discriminate | ].
  intros H.
  destruct (numeral_value_digits _ 0 0 n ltac:(lia) H) as [Hd [Hle Hv]].
  split; [ exact Hle | ].
  unfold JS.StringToNumber. rewrite trim_digits by (cbn; congruence || assumption).
  cbn [list_ascii_of_string] in *.
  assert (is_digit c) as Hc by (inversion Hd; assumption).
  assert (JS.radix_prefix (c :: list_ascii_of_string rest) = None) as ->.
  { unfold JS.radix_prefix. destruct (list_ascii_of_string rest) as [|c2 r];
      [ reflexivity | ].
    assert (is_digit c2) as Hc2
      by (inversion Hd as [|? ? _ Hd']; inversion Hd'; assumption).
    unfold is_digit in Hc2. digit_tests c2.
    destruct (JS.code c =? 48); reflexivity. }
  unfold is_digit in Hc. digit_tests c.
  unfold JS.unsigned_decimal. rewrite not_Infinity by exact Hc.
  rewrite Hv. cbn [JS.exponent_part].
  assert (0 < Z.of_nat (String.length (String c rest)))
    by (cbn [String.length]; lia).
  destruct (Z.eqb_spec (0 + Z.of_nat (String.length (String c rest)) + 0) 0);
    [ lia | ].
  change (0 - 0) with 0. change (0 <=? 0) with true.
  cbv iota. change (10 ^ 0) with 1. rewrite Z.mul_1_r. reflexivity.
Qed.

(** The anchor of the owner test: for a parameter that is the decimal
    numeral of [n], below [2^53], [param == id] holds exactly when [n] is
    the id. *)
Lemma loose_eq_number_numeral (s : string) (n m : Z) :
  decimal_numeral s = Some n ->
  n < 2 ^ 53 ->
  JS.loose_eq_number (Some s) (JS.of_Z m) = (n =? m).
Proof.
  intros H Hn. destruct (StringToNumber_numeral s n H) as [H0 E].
  unfold JS.loose_eq_number. rewrite E. apply number_eqb_integer. lia.
Qed.

(** Likewise for [ids.includes(Number(param))]. *)
Lemma includes_numeral (s : string) (n : Z) (ids : list Z) :
  decimal_numeral s = Some n ->
  n < 2 ^ 53 ->
  JS.includes (map JS.of_Z ids) (JS.ToNumber (Some s)) = existsb (Z.eqb n) ids.
Proof.
  intros H Hn. destruct (StringToNumber_numeral s n H) as [H0 E].
  unfold JS.includes, JS.ToNumber. rewrite E.
  destruct (binary64_integer n ltac:(lia)) as [q [Hq Eq]].
  destruct (finite_spec (n * 2 ^ (- q)) q) as [m' [e' [Ef _]]].
  induction ids as [|i ids IH]; cbn [map existsb]; [ reflexivity | ].
  rewrite IH. f_equal.
  unfold JS.same_value_zero. rewrite <- (number_eqb_integer n i) by lia.
  rewrite Eq, Ef. reflexivity.
Qed.

(** From here on the comparisons are used through the lemmas above. *)
#[global] Opaque JS.loose_eq_number JS.includes JS.ToNumber JS.loose_eq_string.

(** ** Shared lemmas *)

Lemma template_classified (k : authorization.ResourceKind) :
  authorization.resourceIdentification !! template k = Some k.
Proof. destruct k; vm_compute; reflexivity. Qed.

Lemma probe_classified (k : authorization.ResourceKind) (intent : string) :
  classified (probe k intent) k.
Proof. destruct k; vm_compute; reflexivity. Qed.

(** A route the table does not list selects the [default] of the switch. *)
Lemma unlisted_route_denied (w : Collaborators) (req : Request) :
  authorization.resourceIdentification !! authorization.incomingRoute req
  = None ->
  denies (run w req) /\
  trace (snd (run w req)) = [Send 403 authorization.insufficient_permissions].
Proof.
  intros H. unfold run, authorization.check, authorization.dispatch.
  rewrite H. settle.
Qed.

(** A method for which the case has no branch falls through to the
    rejection, before the caller is looked at. *)
Lemma no_branch_denied
    (w : Collaborators) (req : Request) (k : authorization.ResourceKind) :
  classified req k ->
  no_branch k (method req) = true ->
  denies (run w req) /\
  trace (snd (run w req)) = [Send 403 authorization.insufficient_permissions].
Proof.
  intros H Hn. enter H.
  destruct k; cbn in Hn; try discriminate;
    split_methods Hn; try discriminate; exec; settle.
Qed.

(** [no_branch] is exact: where it is [false], some request of that kind
    and method is let through. *)
Lemma branch_reaches_next (k : authorization.ResourceKind) (intent : string) :
  no_branch k intent = false ->
  allows (run related (probe k intent)).
Proof.
  intros Hn. pose proof (probe_classified k intent) as H. enter H.
  unfold allows.
  destruct k; cbn in Hn; cbn [method probe];
    repeat match goal with
      | |- context [String.eqb intent ?b] =>
          destruct (String.eqb intent b) eqn:?; cbn in Hn
      end; try discriminate; vm_compute; tauto.
Qed.

(** The case of [ALL_ORDERS] looks at neither the method nor the caller. *)
Lemma all_orders_open (w : Collaborators) (req : Request) :
  classified req authorization.ALL_ORDERS ->
  run w req
  = (Returned tt,
     {| req_user := user req; resolved := false; trace := [Next] |}).
Proof. intros H. enter H. reflexivity. Qed.

(** Where a case reads the caller and there is none, the middleware throws:
    the request is neither handed on nor answered. *)
Example categories_without_caller_throws :
  run anonymous get_categories_anonymously
  = (Threw TypeError, {| req_user := None; resolved := false; trace := [] |}).
Proof. vm_compute. reflexivity. Qed.

(** A run that hands the request on sends no response. *)
Lemma allowed_sends_nothing (w : Collaborators) (req : Request) :
  allows (run w req) -> responses (trace (snd (run w req))) = [].
Proof.
  unfold run, authorization.check, authorization.dispatch, initial.
  destruct (authorization.resourceIdentification !! _) as [[]|]; exec.
  all: unfold allows.
  all: repeat (case_match; cbn in *; subst; simplify_eq; cbn in * ).
  all: cbn; intuition (try congruence; try discriminate).
Qed.

(** ** The claims *)

(** X22.  The part of the fail-closed default the switch enforces.  A
    request whose route template is not in the table, or whose kind has no
    branch for its method in the switch, is denied: the 403 rejection is
    the only effect and [next()] is not called, whoever the caller is,
    administrators and absent callers included. *)
Lemma fail_closed_default (w : Collaborators) (req : Request) :
  authorization.resourceIdentification !! authorization.incomingRoute req
  = None \/
  (exists k, classified req k /\ no_branch k (method req) = true) ->
  denies (run w req) /\
  trace (snd (run w req)) = [Send 403 authorization.insufficient_permissions].
Proof.
  intros [H | [k [H Hn]]].
  - now apply unlisted_route_denied.
  - now apply (no_branch_denied w req k).
Qed.

Lemma fail_closed_default_witness :
  (authorization.resourceIdentification
     !! authorization.incomingRoute (probe authorization.SINGLE_ORDER "DELETE")
   = None \/
   exists k, classified (probe authorization.SINGLE_ORDER "DELETE") k /\
             no_branch k (method (probe authorization.SINGLE_ORDER "DELETE"))
             = true) /\
  denies (run related (probe authorization.SINGLE_ORDER "DELETE")).
Proof.
  assert (exists k, classified (probe authorization.SINGLE_ORDER "DELETE") k /\
             no_branch k (method (probe authorization.SINGLE_ORDER "DELETE"))
             = true) as H.
  { exists authorization.SINGLE_ORDER. split; vm_compute; reflexivity. }
  split; [ right; exact H | ].
  exact (proj1 (fail_closed_default related
                  (probe authorization.SINGLE_ORDER "DELETE") (or_intror H))).
Defined.

(** C1.  The code breaks it where a case does not test the method, as its
    sibling cases do, and so applies its rule to methods its own comment
    leaves out.  DELETE on [/store/orders] is handed on with no caller at
    all, though the case says "This is valid for: GET" and "As long as
    they're authenticated"; GET on [/store/categories] by an administrator
    is handed on, though the case says "This is only valid for: POST".
    Neither request is denied. *)
Theorem methods_outside_rule_let_through :
  (classified delete_all_orders authorization.ALL_ORDERS /\
   valid_for authorization.ALL_ORDERS (method delete_all_orders) = false /\
   user delete_all_orders = None /\
   run anonymous delete_all_orders
   = (Returned tt, {| req_user := None; resolved := false;
                      trace := [Next] |}) /\
   allows (run anonymous delete_all_orders) /\
   ~ denies (run anonymous delete_all_orders)) /\
  (classified get_categories authorization.ALL_CATEGORIES /\
   valid_for authorization.ALL_CATEGORIES (method get_categories) = false /\
   allows (run anonymous get_categories) /\
   ~ denies (run anonymous get_categories)).
Proof.
  split.
  - split; [ vm_compute; reflexivity | ].
    split; [ vm_compute; reflexivity | ].
    split; [ reflexivity | ].
    split; [ vm_compute; reflexivity | ].
    unfold allows, denies; vm_compute; tauto.
  - split; [ vm_compute; reflexivity | ].
    split; [ vm_compute; reflexivity | ].
    unfold allows, denies; vm_compute; tauto.
Qed.

(** C2, as stated: it fails.  A sign-up for an administrator account that
    carries no valid token is not denied by the middleware: the
    authentication middleware answers 401, no 403 is sent and the check
    never returns. *)
Lemma administrator_signup_without_caller_not_denied :
  classified administrator_signup authorization.ALL_USERS /\
  method administrator_signup = "POST" /\
  body administrator_signup !! "type" = Some (JS.Str "ADMINISTRATOR") /\
  type_is_administrator administrator_signup = Some true /\
  authenticated_caller anonymous = None /\
  run anonymous administrator_signup
  = (Pending, {| req_user := None; resolved := false;
                 trace := [Send 401 authentication.invalid_token] |}) /\
  ~ denies (run anonymous administrator_signup).
Proof.
  split; [ vm_compute; reflexivity | ].
  split; [ reflexivity | ].
  split; [ vm_compute; reflexivity | ].
  split; [ vm_compute; reflexivity | ].
  split; [ vm_compute; reflexivity | ].
  split; [ vm_compute; reflexivity | ].
  unfold denies. vm_compute. intuition congruence.
Qed.

(** C2, amended.  For a POST classified [ALL_USERS]: if the comparison of
    the body's type field with ADMINISTRATOR answers true, the request is
    handed on iff the token resolves to a caller who is an administrator,
    and is denied with 403 when it resolves to a caller who is not; when it
    resolves to no caller, the authentication middleware has answered 401,
    [next()] is not called, no 403 is sent and the check stays suspended.
    If the comparison answers false, the request is handed on whatever the
    caller, present or not.  The comparison answers true for the string
    ADMINISTRATOR and false for any other string and for a body with no
    type field; so the sign-up with type CONSUMER and no caller is handed
    on. *)
Theorem all_users_post (w : Collaborators) (req : Request) :
  classified req authorization.ALL_USERS ->
  method req = "POST" ->
  (type_is_administrator req = Some true ->
   (allows (run w req) <->
    exists u, authenticated_caller w = Some u /\ is_admin u) /\
   (forall u, authenticated_caller w = Some u -> ~ is_admin u ->
              denies (run w req)) /\
   (authenticated_caller w = None ->
    fst (run w req) = Pending /\
    ~ allows (run w req) /\
    responses (trace (snd (run w req)))
    = [(401, authentication.invalid_token)])) /\
  (type_is_administrator req = Some false ->
   run w req
   = (Returned tt, {| req_user := user req; resolved := false;
                      trace := [Next] |})) /\
  (forall t, body req !! "type" = Some (JS.Str t) ->
             type_is_administrator req = Some (String.eqb t "ADMINISTRATOR")) /\
  (body req !! "type" = None -> type_is_administrator req = Some false) /\
  (classified consumer_signup authorization.ALL_USERS /\
   user consumer_signup = None /\
   run w consumer_signup
   = (Returned tt, {| req_user := None; resolved := false;
                      trace := [Next] |})).
Proof.
  intros H Hm.
  assert (forall t, body req !! "type" = Some (JS.Str t) ->
            type_is_administrator req = Some (String.eqb t "ADMINISTRATOR"))
    as Hstr.
  { intros t Ht. unfold type_is_administrator. rewrite Ht.
    with_strategy transparent [JS.loose_eq_string] reflexivity. }
  assert (body req !! "type" = None -> type_is_administrator req = Some false)
    as Hnone.
  { intros Ht. unfold type_is_administrator. rewrite Ht.
    with_strategy transparent [JS.loose_eq_string] reflexivity. }
  refine (conj _ (conj _ (conj Hstr (conj Hnone _)))).
  - enter H. rewrite Hm.
    unfold type_is_administrator, authenticated_caller, is_admin.
    intros Ht. exec. rewrite Ht. cbn.
    destruct (jwt w) as [| |tid]; cbn.
    1,2: settle; destruct H as [u [? _]]; discriminate.
    destruct (findUnique w tid) as [[u|]|]; cbn.
    2,3: settle; destruct H as [u [? _]]; discriminate.
    destruct (type u) eqn:E; cbn; settle; same_caller.
  - enter H. rewrite Hm. unfold type_is_administrator.
    intros Ht. exec. rewrite Ht. reflexivity.
  - split; [ vm_compute; reflexivity | ].
    split; [ reflexivity | ]. vm_compute. reflexivity.
Qed.

Lemma all_users_post_witness :
  classified administrator_signup authorization.ALL_USERS /\
  method administrator_signup = "POST" /\
  type_is_administrator administrator_signup = Some true /\
  (allows (run related administrator_signup) <->
   exists u, authenticated_caller related = Some u /\ is_admin u).
Proof.
  assert (classified administrator_signup authorization.ALL_USERS) as H1
    by (vm_compute; reflexivity).
  assert (method administrator_signup = "POST") as H2 by reflexivity.
  assert (type_is_administrator administrator_signup = Some true) as H3
    by (vm_compute; reflexivity).
  refine (conj H1 (conj H2 (conj H3 _))).
  exact (proj1 (proj1 (all_users_post related administrator_signup H1 H2) H3)).
Defined.

(** What C2 leaves out: a type field whose conversion to a primitive
    throws makes the middleware throw, before any authentication. *)
Example unconvertible_signup_throws :
  type_is_administrator unconvertible_signup = None /\
  run anonymous unconvertible_signup
  = (Threw TypeError, {| req_user := None; resolved := false; trace := [] |}).
Proof. split; vm_compute; reflexivity. Qed.

(** C3.  For a PUT classified [SINGLE_ORDER_ITEM] the request is handed on
    iff the order-relationship query answers true and the item-relationship
    query answers true.  When the order query answers false the request is
    denied and the item query is not made; when it answers true the item
    query is made next, after it. *)
Theorem order_item_two_step (w : Collaborators) (req : Request) :
  classified req authorization.SINGLE_ORDER_ITEM ->
  method req = "PUT" ->
  let orderId := params req !! "orderId" in
  let itemId := params req !! "itemId" in
  let order := checkUserOrderRelationship w (user req) orderId in
  let item := checkUserItemRelationship w (user req) orderId itemId in
  (allows (run w req) <-> order = Resolves true /\ item = Resolves true) /\
  (order = Resolves false ->
   denies (run w req) /\
   forall c o i, ~ In (ItemQuery c o i) (trace (snd (run w req)))) /\
  (order = Resolves true ->
   exists rest,
     trace (snd (run w req))
     = OrderQuery (user req) orderId ::
       ItemQuery (user req) orderId itemId :: rest) /\
  (order = Resolves true -> item = Resolves false -> denies (run w req)).
Proof.
  intros H Hm. enter H. rewrite Hm. exec.
  destruct (checkUserOrderRelationship w _ _) as [[|]|]; cbn;
    [ destruct (checkUserItemRelationship w _ _ _) as [[|]|]; cbn | | ];
    settle; eauto.
Qed.

Lemma order_item_two_step_witness :
  classified put_order_item authorization.SINGLE_ORDER_ITEM /\
  method put_order_item = "PUT" /\
  (checkUserOrderRelationship anonymous (user put_order_item)
     (params put_order_item !! "orderId") = Resolves false ->
   denies (run anonymous put_order_item) /\
   forall c o i,
     ~ In (ItemQuery c o i) (trace (snd (run anonymous put_order_item)))).
Proof.
  assert (classified put_order_item authorization.SINGLE_ORDER_ITEM) as H1
    by (vm_compute; reflexivity).
  assert (method put_order_item = "PUT") as H2 by reflexivity.
  refine (conj H1 (conj H2 _)).
  exact (proj1 (proj2 (order_item_two_step anonymous put_order_item H1 H2))).
Defined.

(** The owner test on a parameter that is a decimal numeral below [2^53]
    compares integers. *)
Lemma owns_numeral (req : Request) (u : User) (s : string) (n : Z) :
  params req !! "userId" = Some s ->
  decimal_numeral s = Some n ->
  n < 2 ^ 53 ->
  owns req u <-> n = id u.
Proof.
  intros Hs Hn Hlt. unfold owns. rewrite Hs.
  rewrite (loose_eq_number_numeral s n (id u) Hn Hlt). apply Z.eqb_eq.
Qed.

(** A route without the parameter has no owner. *)
Lemma owns_undefined (req : Request) (u : User) :
  params req !! "userId" = None -> ~ owns req u.
Proof.
  intros Hs. unfold owns. rewrite Hs.
  with_strategy transparent [JS.loose_eq_number] (cbn; discriminate).
Qed.

(** Likewise the membership test on the address id. *)
Lemma owns_address_numeral (req : Request) (u : User) (s : string) (n : Z) :
  params req !! "addressId" = Some s ->
  decimal_numeral s = Some n ->
  n < 2 ^ 53 ->
  owns_address req u <-> In n (map address_id (Address u)).
Proof.
  intros Hs Hn Hlt. unfold owns_address. rewrite Hs.
  rewrite <- (map_map address_id JS.of_Z).
  rewrite (includes_numeral s n _ Hn Hlt).
  rewrite existsb_exists. split.
  - intros [x [Hin Hx]]. apply Z.eqb_eq in Hx. now subst.
  - intros Hin. exists n. split; [ exact Hin | apply Z.eqb_refl ].
Qed.

(** X25.  On a PUT classified [SINGLE_USER] whose body has a field of its
    own called [hasOwnProperty], the call [req.body.hasOwnProperty('type')]
    throws: nothing is sent and the request is not handed on, whoever the
    caller is. *)
Lemma shadowed_put_throws (w : Collaborators) (req : Request) :
  classified req authorization.SINGLE_USER ->
  method req = "PUT" ->
  shadows_hasOwnProperty req ->
  run w req
  = (Threw TypeError,
     {| req_user := user req; resolved := false; trace := [] |}).
Proof.
  intros H Hm [v Hv]. enter H. rewrite Hm. exec. rewrite Hv. reflexivity.
Qed.

Lemma shadowed_put_throws_witness :
  classified role_change_shadowed_body authorization.SINGLE_USER /\
  method role_change_shadowed_body = "PUT" /\
  shadows_hasOwnProperty role_change_shadowed_body /\
  run related role_change_shadowed_body
  = (Threw TypeError,
     {| req_user := Some administrator_1; resolved := false; trace := [] |}).
Proof.
  assert (classified role_change_shadowed_body authorization.SINGLE_USER)
    as H1 by (vm_compute; reflexivity).
  assert (shadows_hasOwnProperty role_change_shadowed_body) as H3
    by (exists (JS.Num (JS.of_Z 1)); vm_compute; reflexivity).
  refine (conj H1 (conj eq_refl (conj H3 _))).
  exact (shadowed_put_throws related role_change_shadowed_body H1 eq_refl H3).
Defined.

(** X23.  The rule of [SINGLE_USER] away from type changes.  For a GET, a
    DELETE, or a PUT whose body has neither a type field nor a field
    called [hasOwnProperty], made by a resolved caller: the request is
    handed on iff [routeParams.userId] equals the caller's id or the caller
    is an administrator, and is denied otherwise.  Where the parameter is
    the decimal numeral of an integer below [2^53], equality is equality of
    that integer and the id. *)
Lemma single_user_self_or_admin
    (w : Collaborators) (req : Request) (u : User) :
  classified req authorization.SINGLE_USER ->
  user req = Some u ->
  method req = "GET" \/ method req = "DELETE" \/
  (method req = "PUT" /\ body req !! "type" = None /\
   ~ shadows_hasOwnProperty req) ->
  (allows (run w req) <-> owns req u \/ is_admin u) /\
  (denies (run w req) <-> ~ (owns req u \/ is_admin u)) /\
  (forall s n,
      params req !! "userId" = Some s ->
      decimal_numeral s = Some n -> n < 2 ^ 53 ->
      (allows (run w req) <-> n = id u \/ is_admin u) /\
      (denies (run w req) <-> n <> id u /\ ~ is_admin u)).
Proof.
  intros H Hu Hm.
  assert ((allows (run w req) <-> owns req u \/ is_admin u) /\
          (denies (run w req) <-> ~ (owns req u \/ is_admin u))) as Hrule.
  { enter H. unfold owns, is_admin. rewrite Hu.
    destruct Hm as [Hm | [Hm | [Hm [Ht Hs]]]]; rewrite Hm; exec.
    3: { unfold shadows_hasOwnProperty in Hs.
         apply eq_None_not_Some in Hs. rewrite Hs, Ht. cbn.
         destruct (type u) eqn:E; cbn;
           destruct (JS.loose_eq_number _ _); settle. }
    all: destruct (type u) eqn:E; cbn;
      destruct (JS.loose_eq_number _ _); settle. }
  destruct Hrule as [Ha Hd].
  refine (conj Ha (conj Hd _)).
  intros s n Hs Hn Hlt.
  pose proof (owns_numeral req u s n Hs Hn Hlt) as Ho.
  split; [ tauto | ].
  rewrite Hd. rewrite Ho. tauto.
Qed.

Lemma single_user_self_or_admin_witness :
  classified get_own_account authorization.SINGLE_USER /\
  user get_own_account = Some consumer_5 /\
  method get_own_account = "GET" /\
  (allows (run anonymous get_own_account) <->
   owns get_own_account consumer_5 \/ is_admin consumer_5).
Proof.
  assert (classified get_own_account authorization.SINGLE_USER) as H1
    by (vm_compute; reflexivity).
  refine (conj H1 (conj eq_refl (conj eq_refl _))).
  exact (proj1 (single_user_self_or_admin anonymous get_own_account
                  consumer_5 H1 eq_refl (or_introl eq_refl))).
Defined.

(** C4.  The code breaks it on a PUT whose body has a field called
    [hasOwnProperty]: [req.body.hasOwnProperty('type')] then calls a JSON
    value and throws.  Consumer 5 putting [{hasOwnProperty: 1}] to
    [/user/5], a PUT without a role change by the owner of the account, is
    neither handed on nor answered. *)
Theorem single_user_shadowed_body_throws :
  classified put_shadowed_body authorization.SINGLE_USER /\
  method put_shadowed_body = "PUT" /\
  body put_shadowed_body !! "type" = None /\
  user put_shadowed_body = Some consumer_5 /\
  params put_shadowed_body !! "userId" = Some "5" /\
  id consumer_5 = 5 /\
  owns put_shadowed_body consumer_5 /\
  run anonymous put_shadowed_body
  = (Threw TypeError,
     {| req_user := Some consumer_5; resolved := false; trace := [] |}) /\
  ~ allows (run anonymous put_shadowed_body).
Proof.
  split; [ vm_compute; reflexivity | ].
  split; [ reflexivity | ].
  split; [ vm_compute; reflexivity | ].
  split; [ reflexivity | ].
  split; [ vm_compute; reflexivity | ].
  split; [ reflexivity | ].
  split; [ unfold owns; vm_compute; reflexivity | ].
  split; [ vm_compute; reflexivity | ].
  unfold allows. vm_compute. tauto.
Qed.

(** X24.  The rule of [SINGLE_USER] on type changes.  For a PUT whose body
    has a type field and no field called [hasOwnProperty]: the request is
    handed on iff the caller is an administrator, whatever
    [routeParams.userId] is; a caller who is not an administrator, the
    owner of the account included, is denied. *)
Lemma single_user_role_change (w : Collaborators) (req : Request) :
  classified req authorization.SINGLE_USER ->
  method req = "PUT" ->
  is_Some (body req !! "type") ->
  ~ shadows_hasOwnProperty req ->
  (allows (run w req) <-> exists u, user req = Some u /\ is_admin u) /\
  (forall u, user req = Some u -> ~ is_admin u -> denies (run w req)).
Proof.
  intros H Hm [v Hv] Hs. enter H.
  unfold shadows_hasOwnProperty in Hs. apply eq_None_not_Some in Hs.
  unfold is_admin. rewrite Hm. exec. rewrite Hs, Hv. cbn.
  destruct (user req) as [u|]; cbn.
  - destruct (type u) eqn:E; cbn; settle; same_caller.
  - settle. destruct H as [u [? _]]. discriminate.
Qed.

Lemma single_user_role_change_witness :
  classified change_own_type authorization.SINGLE_USER /\
  method change_own_type = "PUT" /\
  is_Some (body change_own_type !! "type") /\
  ~ shadows_hasOwnProperty change_own_type /\
  owns change_own_type consumer_5 /\
  denies (run anonymous change_own_type).
Proof.
  assert (classified change_own_type authorization.SINGLE_USER) as H1
    by (vm_compute; reflexivity).
  assert (is_Some (body change_own_type !! "type")) as H3
    by (exists (JS.Str "SUPPLIER"); vm_compute; reflexivity).
  assert (~ shadows_hasOwnProperty change_own_type) as Hs
    by (unfold shadows_hasOwnProperty; apply eq_None_not_Some;
        vm_compute; reflexivity).
  assert (owns change_own_type consumer_5) as H4
    by (unfold owns; vm_compute; reflexivity).
  assert (~ is_admin consumer_5) as H5 by (unfold is_admin; cbn; discriminate).
  refine (conj H1 (conj eq_refl (conj H3 (conj Hs (conj H4 _))))).
  exact (proj2 (single_user_role_change anonymous change_own_type
                  H1 eq_refl H3 Hs) consumer_5 eq_refl H5).
Defined.

(** C5.  The code breaks it on a body that, beside the type field, has a
    field called [hasOwnProperty]: the test for the type field throws
    before the caller is looked at.  Administrator 1 putting
    [{type: "SUPPLIER", hasOwnProperty: 1}] to [/user/5] is not handed
    on, and nothing is answered. *)
Theorem role_change_shadowed_body_throws :
  classified role_change_shadowed_body authorization.SINGLE_USER /\
  method role_change_shadowed_body = "PUT" /\
  body role_change_shadowed_body !! "type" = Some (JS.Str "SUPPLIER") /\
  user role_change_shadowed_body = Some administrator_1 /\
  is_admin administrator_1 /\
  run anonymous role_change_shadowed_body
  = (Threw TypeError,
     {| req_user := Some administrator_1; resolved := false; trace := [] |}) /\
  ~ allows (run anonymous role_change_shadowed_body).
Proof.
  split; [ vm_compute; reflexivity | ].
  split; [ reflexivity | ].
  split; [ vm_compute; reflexivity | ].
  split; [ reflexivity | ].
  split; [ reflexivity | ].
  split; [ vm_compute; reflexivity | ].
  unfold allows. vm_compute. tauto.
Qed.

(** C6.  For a request classified as a cart or wishlist kind and made by a
    resolved caller: it is handed on iff [routeParams.userId] equals the
    caller's id and the caller is a consumer, and is denied otherwise; a
    caller who is not a consumer is denied even as owner, an administrator
    included.  Where the parameter is the decimal numeral of an integer
    below [2^53], equality is equality of that integer and the id; a route
    without the parameter is denied.  So consumer 5 reads the cart of
    [/user/5/cart], and administrator 1 is denied the cart of
    [/user/1/cart]. *)
Theorem cart_wishlist_consumer_owner
    (w : Collaborators) (req : Request)
    (k : authorization.ResourceKind) (u : User) :
  classified req k ->
  cart_or_wishlist k ->
  user req = Some u ->
  (allows (run w req) <-> owns req u /\ is_consumer u) /\
  (denies (run w req) <-> ~ (owns req u /\ is_consumer u)) /\
  (~ is_consumer u -> denies (run w req)) /\
  (is_admin u -> denies (run w req)) /\
  (forall s n,
      params req !! "userId" = Some s ->
      decimal_numeral s = Some n -> n < 2 ^ 53 ->
      (allows (run w req) <-> n = id u /\ is_consumer u) /\
      (denies (run w req) <-> ~ (n = id u /\ is_consumer u))) /\
  (params req !! "userId" = None -> denies (run w req)) /\
  (classified consumer_reads_own_cart authorization.ALL_CART_ITEMS /\
   allows (run w consumer_reads_own_cart)) /\
  (classified administrator_reads_own_cart authorization.ALL_CART_ITEMS /\
   denies (run w administrator_reads_own_cart)).
Proof.
  intros H Hk Hu.
  assert ((allows (run w req) <-> owns req u /\ is_consumer u) /\
          (denies (run w req) <-> ~ (owns req u /\ is_consumer u)) /\
          (~ is_consumer u -> denies (run w req)) /\
          (is_admin u -> denies (run w req))) as Hrule.
  { unfold owns, is_consumer, is_admin.
    destruct Hk as [-> | [-> | [-> | ->]]]; enter H; rewrite Hu; exec;
      destruct (type u) eqn:E; cbn; destruct (JS.loose_eq_number _ _); settle. }
  destruct Hrule as [Ha [Hd [Hc Hadm]]].
  refine (conj Ha (conj Hd (conj Hc (conj Hadm (conj _ (conj _ _)))))).
  - intros s n Hs Hn Hlt.
    pose proof (owns_numeral req u s n Hs Hn Hlt) as Ho.
    rewrite Ha, Hd, Ho. tauto.
  - intros Hs. apply Hd. intros [Ho _].
    exact (owns_undefined req u Hs Ho).
  - split; split.
    + vm_compute; reflexivity.
    + unfold allows. vm_compute. tauto.
    + vm_compute; reflexivity.
    + unfold denies. vm_compute. intuition congruence.
Qed.

Lemma cart_wishlist_consumer_owner_witness :
  classified administrator_reads_own_cart authorization.ALL_CART_ITEMS /\
  cart_or_wishlist authorization.ALL_CART_ITEMS /\
  user administrator_reads_own_cart = Some administrator_1 /\
  owns administrator_reads_own_cart administrator_1 /\
  denies (run anonymous administrator_reads_own_cart).
Proof.
  assert (classified administrator_reads_own_cart
            authorization.ALL_CART_ITEMS) as H1
    by (vm_compute; reflexivity).
  assert (cart_or_wishlist authorization.ALL_CART_ITEMS) as H2
    by (left; reflexivity).
  assert (owns administrator_reads_own_cart administrator_1) as H4
    by (unfold owns; vm_compute; reflexivity).
  refine (conj H1 (conj H2 (conj eq_refl (conj H4 _)))).
  exact (proj1 (proj2 (proj2 (proj2
           (cart_wishlist_consumer_owner anonymous
              administrator_reads_own_cart authorization.ALL_CART_ITEMS
              administrator_1 H1 H2 eq_refl)))) eq_refl).
Defined.

(** C7.  For a request classified [SINGLE_ADDRESS] and made by a resolved
    caller: an administrator is handed on; any other caller is handed on
    iff [routeParams.userId] equals the caller's id and the numeric value
    of [routeParams.addressId] is among the ids of the caller's addresses,
    and is denied otherwise.  Where the two parameters are decimal numerals
    of integers below [2^53], that is: the first integer is the caller's id
    and the second is the id of one of the caller's addresses.  So the
    caller with id 5, role CONSUMER and addresses 9 and 12 may DELETE
    [/user/5/addresses/9], also with U+00A0 before the 9, which [Number]
    strips, and is denied on [/user/5/addresses/99]. *)
Theorem single_address_membership
    (w : Collaborators) (req : Request) (u : User) :
  classified req authorization.SINGLE_ADDRESS ->
  user req = Some u ->
  (is_admin u -> allows (run w req)) /\
  (~ is_admin u ->
   (allows (run w req) <-> owns req u /\ owns_address req u) /\
   (denies (run w req) <-> ~ (owns req u /\ owns_address req u))) /\
  (~ is_admin u ->
   forall s n a m,
     params req !! "userId" = Some s ->
     decimal_numeral s = Some n -> n < 2 ^ 53 ->
     params req !! "addressId" = Some a ->
     decimal_numeral a = Some m -> m < 2 ^ 53 ->
     (allows (run w req) <->
      n = id u /\ In m (map address_id (Address u))) /\
     (denies (run w req) <->
      ~ (n = id u /\ In m (map address_id (Address u))))) /\
  (classified (delete_address "9") authorization.SINGLE_ADDRESS /\
   allows (run w (delete_address "9"))) /\
  (classified (delete_address "99") authorization.SINGLE_ADDRESS /\
   denies (run w (delete_address "99"))) /\
  (classified (delete_address nbsp_9) authorization.SINGLE_ADDRESS /\
   allows (run w (delete_address nbsp_9))).
Proof.
  intros H Hu.
  assert (~ is_admin u ->
          (allows (run w req) <-> owns req u /\ owns_address req u) /\
          (denies (run w req) <-> ~ (owns req u /\ owns_address req u)))
    as Hrule.
  { enter H. rewrite Hu. unfold is_admin, owns, owns_address. exec.
    destruct (type u) eqn:E; cbn;
      try (destruct (JS.loose_eq_number _ _), (JS.includes _ _)); cbn;
      settle. }
  refine (conj _ (conj Hrule (conj _ (conj _ (conj _ _))))).
  - enter H. rewrite Hu. unfold is_admin. exec. intros ->. settle.
  - intros Hna s n a m Hs Hn Hlt Has Hm Hmlt.
    destruct (Hrule Hna) as [Ha Hd].
    pose proof (owns_numeral req u s n Hs Hn Hlt) as Ho.
    pose proof (owns_address_numeral req u a m Has Hm Hmlt) as Hoa.
    rewrite Ha, Hd, Ho, Hoa. tauto.
  - split; [ vm_compute; reflexivity | unfold allows; vm_compute; tauto ].
  - split; [ vm_compute; reflexivity | ].
    unfold denies. vm_compute. intuition congruence.
  - split; [ vm_compute; reflexivity | unfold allows; vm_compute; tauto ].
Qed.

Lemma single_address_membership_witness :
  classified (delete_address "9") authorization.SINGLE_ADDRESS /\
  user (delete_address "9") = Some consumer_5 /\
  ~ is_admin consumer_5 /\
  (allows (run anonymous (delete_address "9")) <->
   owns (delete_address "9") consumer_5 /\
   owns_address (delete_address "9") consumer_5).
Proof.
  assert (classified (delete_address "9") authorization.SINGLE_ADDRESS) as H1
    by (vm_compute; reflexivity).
  assert (~ is_admin consumer_5) as H3 by (unfold is_admin; cbn; discriminate).
  refine (conj H1 (conj eq_refl (conj H3 _))).
  exact (proj1 (proj1 (proj2
           (single_address_membership anonymous (delete_address "9")
              consumer_5 H1 eq_refl)) H3)).
Defined.

(** C8.  Whenever the middleware returns without handing the request on,
    whatever the kind, the rule that failed, the caller and the answers of
    the collaborators, the one response of the run is the same: status 403
    with the message "Insufficient permissions for specified resource.". *)
Theorem uniform_rejection (w : Collaborators) (req : Request) :
  refuses (run w req) ->
  responses (trace (snd (run w req)))
  = [(403, Message "Insufficient permissions for specified resource.")].
Proof.
  unfold run, authorization.check, authorization.dispatch, initial.
  destruct (authorization.resourceIdentification !! _) as [[]|]; exec.
  all: unfold refuses.
  all: repeat (case_match; cbn in *; subst; simplify_eq; cbn in * ).
  all: cbn; intuition (try congruence; try discriminate).
Qed.

Lemma uniform_rejection_witness :
  refuses (run anonymous change_own_type) /\
  responses (trace (snd (run anonymous change_own_type)))
  = [(403, Message "Insufficient permissions for specified resource.")].
Proof.
  assert (refuses (run anonymous change_own_type)) as H.
  { unfold refuses. vm_compute. intuition congruence. }
  split; [ exact H | exact (uniform_rejection anonymous change_own_type H) ].
Defined.

(** C9, as stated: it fails.  When the relationship query rejects, the
    middleware throws: the rejection leaves it, and nothing is denied. *)
Lemma oracle_failure_escapes :
  classified get_order authorization.SINGLE_ORDER /\
  collaborator_failure oracle_down (run oracle_down get_order) /\
  fst (run oracle_down get_order) = Threw Rejection /\
  ~ denies (run oracle_down get_order).
Proof.
  split; [ vm_compute; reflexivity | ].
  split; [ exists (OrderQuery (Some consumer_5) (Some "7")); vm_compute; tauto | ].
  split; [ vm_compute; reflexivity | ].
  unfold denies. vm_compute. intuition congruence.
Qed.

(** C9, amended.  When a collaborator consulted in the course of a run
    fails, the request is never handed on.  It is not denied either: a
    relationship query that rejects is the last thing the run does, the
    middleware throws and no response is sent; a user lookup that fails
    makes the authentication middleware answer 401 while the check stays
    suspended. *)
Theorem collaborator_failure_never_allows (w : Collaborators) (req : Request) :
  collaborator_failure w (run w req) ->
  ~ allows (run w req) /\
  ~ denies (run w req) /\
  ((fst (run w req) = Threw Rejection /\
    responses (trace (snd (run w req))) = [] /\
    (exists e, last (trace (snd (run w req))) = Some e /\ failed w e /\
               forall userId, e <> FindUnique userId)) \/
   (fst (run w req) = Pending /\
    responses (trace (snd (run w req)))
    = [(401, authentication.invalid_token)] /\
    (exists userId, In (FindUnique userId) (trace (snd (run w req))) /\
                    findUnique w userId = Rejects))).
Proof.
  unfold run, authorization.check, authorization.dispatch, initial.
  destruct (authorization.resourceIdentification !! _) as [[]|]; exec.
  all: unfold collaborator_failure, denies, allows.
  all: repeat (case_match; cbn in *; subst; simplify_eq; cbn in * ).
  all: intros [e [Hin Hf]]; cbn in Hin.
  all: repeat match goal with
         | Hx : _ \/ _ |- _ => destruct Hx
         | Hx : False |- _ => destruct Hx
         end; subst; cbn in Hf; try tauto; try congruence.
  all: cbn; (split; [ intuition (try congruence; try discriminate) | ]).
  all: (split; [ intuition (try congruence; try discriminate) | ]).
  all: first
    [ left; split; [ reflexivity | split; [ reflexivity | ] ];
      eexists; split; [ reflexivity | split; [ cbn; assumption | congruence ] ]
    | right; split; [ reflexivity | split; [ reflexivity | ] ];
      eexists; split; [ left; reflexivity | cbn in *; assumption ] ].
Qed.

Lemma collaborator_failure_never_allows_witness :
  collaborator_failure oracle_down (run oracle_down get_order) /\
  ~ allows (run oracle_down get_order).
Proof.
  assert (collaborator_failure oracle_down (run oracle_down get_order)) as H.
  { exists (OrderQuery (Some consumer_5) (Some "7")). vm_compute. tauto. }
  split; [ exact H | ].
  exact (proj1 (collaborator_failure_never_allows oracle_down get_order H)).
Defined.

(** C10.  The table maps [/store/products/:productId] to [SINGLE_PRODUCT],
    the switch has no case for that kind, and a request so classified is
    denied, the 403 rejection being the only effect, whatever its method,
    its caller and the answers of the collaborators. *)
Theorem single_product_always_denied (w : Collaborators) (req : Request) :
  classified req authorization.SINGLE_PRODUCT ->
  authorization.resourceIdentification !! "/store/products/:productId"
  = Some authorization.SINGLE_PRODUCT /\
  denies (run w req) /\
  trace (snd (run w req)) = [Send 403 authorization.insufficient_permissions].
Proof.
  intros H. split; [ vm_compute; reflexivity | ].
  enter H. settle.
Qed.

Lemma single_product_always_denied_witness :
  classified get_product authorization.SINGLE_PRODUCT /\
  user get_product = Some administrator_1 /\
  denies (run related get_product).
Proof.
  assert (classified get_product authorization.SINGLE_PRODUCT) as H
    by (vm_compute; reflexivity).
  refine (conj H (conj eq_refl _)).
  exact (proj1 (proj2 (single_product_always_denied related get_product H))).
Defined.

(** ** Further properties of the authorization middleware *)

Lemma probe_by_classified
    (u : option User) (k : authorization.ResourceKind) (intent : string) :
  classified (probe_by u k intent) k.
Proof. destruct k; vm_compute; reflexivity. Qed.

(** X1.  On [ALL_CATEGORIES], on [SINGLE_CATEGORY] and on [ALL_USERS] with
    a method other than POST, a resolved caller is handed on iff it is an
    administrator, whatever the method, and is denied otherwise. *)
Theorem administrators_only_rule
    (w : Collaborators) (req : Request)
    (k : authorization.ResourceKind) (u : User) :
  classified req k ->
  administrators_only req k ->
  user req = Some u ->
  (allows (run w req) <-> is_admin u) /\
  (denies (run w req) <-> ~ is_admin u).
Proof.
  intros H Hk Hu. unfold is_admin.
  destruct Hk as [-> | [-> | [-> Hm]]]; enter H; rewrite Hu.
  3: apply String.eqb_neq in Hm; rewrite Hm.
  all: exec; destruct (type u) eqn:E; cbn; settle.
Qed.

Lemma administrators_only_rule_witness :
  classified (probe_by (Some consumer_1) authorization.ALL_CATEGORIES "POST")
    authorization.ALL_CATEGORIES /\
  denies (run related
            (probe_by (Some consumer_1) authorization.ALL_CATEGORIES "POST")).
Proof.
  pose proof (probe_by_classified (Some consumer_1)
                authorization.ALL_CATEGORIES "POST") as H.
  refine (conj H _).
  apply (proj2 (administrators_only_rule related _ _ consumer_1 H
                  (or_introl eq_refl) eq_refl)).
  unfold is_admin; cbn; discriminate.
Defined.

(** X2.  On [ALL_ADDRESSES] a resolved caller is handed on iff
    [routeParams.userId] equals its id or it is an administrator, for every
    method; otherwise it is denied.  For a parameter that is the decimal
    numeral of an integer below [2^53], equality is that of the integer
    and the id. *)
Theorem all_addresses_self_or_admin
    (w : Collaborators) (req : Request) (u : User) :
  classified req authorization.ALL_ADDRESSES ->
  user req = Some u ->
  (allows (run w req) <-> owns req u \/ is_admin u) /\
  (denies (run w req) <-> ~ (owns req u \/ is_admin u)) /\
  (forall s n,
      params req !! "userId" = Some s ->
      decimal_numeral s = Some n -> n < 2 ^ 53 ->
      (owns req u <-> n = id u)).
Proof.
  intros H Hu. refine (conj _ (conj _ (owns_numeral req u))).
  all: enter H; rewrite Hu; unfold owns, is_admin; exec.
  all: destruct (type u) eqn:E; cbn; destruct (JS.loose_eq_number _ _); settle.
Qed.

Lemma all_addresses_self_or_admin_witness :
  classified (probe_by (Some consumer_2) authorization.ALL_ADDRESSES "POST")
    authorization.ALL_ADDRESSES /\
  denies (run related
            (probe_by (Some consumer_2) authorization.ALL_ADDRESSES "POST")).
Proof.
  pose proof (probe_by_classified (Some consumer_2)
                authorization.ALL_ADDRESSES "POST") as H.
  refine (conj H _).
  apply (proj1 (proj2
           (all_addresses_self_or_admin related _ consumer_2 H eq_refl))).
  unfold owns, is_admin. vm_compute. intuition discriminate.
Defined.

(** X3.  Reading the notifications of a user (GET on [ALL_NOTIFICATIONS])
    is open to the user and to administrators; dismissing them (PUT on
    [ALL_NOTIFICATIONS] or [SINGLE_NOTIFICATION]) is open to the user only:
    an administrator who is not that user is denied.  For a parameter
    that is the decimal numeral of an integer below [2^53], being the user
    is equality of the integer and the caller's id. *)
Theorem notifications_rule
    (w : Collaborators) (req : Request)
    (k : authorization.ResourceKind) (u : User) :
  classified req k ->
  user req = Some u ->
  (k = authorization.ALL_NOTIFICATIONS -> method req = "GET" ->
   (allows (run w req) <-> owns req u \/ is_admin u) /\
   (denies (run w req) <-> ~ (owns req u \/ is_admin u))) /\
  (k = authorization.ALL_NOTIFICATIONS \/
   k = authorization.SINGLE_NOTIFICATION ->
   method req = "PUT" ->
   (allows (run w req) <-> owns req u) /\
   (denies (run w req) <-> ~ owns req u)) /\
  (forall s n,
      params req !! "userId" = Some s ->
      decimal_numeral s = Some n -> n < 2 ^ 53 ->
      (owns req u <-> n = id u)).
Proof.
  intros H Hu. refine (conj _ (conj _ (owns_numeral req u))).
  all: unfold owns, is_admin.
  - intros -> Hm. enter H. rewrite Hu, Hm. exec.
    destruct (type u) eqn:E; cbn; destruct (JS.loose_eq_number _ _); settle.
  - intros [-> | ->] Hm; enter H; rewrite Hu, Hm; exec;
      destruct (JS.loose_eq_number _ _); settle.
Qed.

Lemma notifications_rule_witness :
  classified
    (probe_by (Some administrator_1) authorization.SINGLE_NOTIFICATION "PUT")
    authorization.SINGLE_NOTIFICATION /\
  (allows (run related (probe_by (Some administrator_1)
                          authorization.SINGLE_NOTIFICATION "PUT")) <->
   owns (probe_by (Some administrator_1)
           authorization.SINGLE_NOTIFICATION "PUT") administrator_1).
Proof.
  pose proof (probe_by_classified (Some administrator_1)
                authorization.SINGLE_NOTIFICATION "PUT") as H.
  refine (conj H _).
  exact (proj1 (proj1 (proj2 (notifications_rule related _ _ administrator_1
                                H eq_refl)) (or_intror eq_refl) eq_refl)).
Defined.

(** X4.  On [ALL_USER_ORDERS] a POST is handed on iff the caller is the
    user named in the route and a consumer, so no administrator places an
    order; a GET is handed on iff the caller is that user or an
    administrator.  Otherwise the caller is denied.  For a parameter that
    is the decimal numeral of an integer below [2^53], being that user is
    equality of the integer and the caller's id. *)
Theorem user_orders_rule (w : Collaborators) (req : Request) (u : User) :
  classified req authorization.ALL_USER_ORDERS ->
  user req = Some u ->
  (method req = "POST" ->
   (allows (run w req) <-> owns req u /\ is_consumer u) /\
   (denies (run w req) <-> ~ (owns req u /\ is_consumer u)) /\
   (is_admin u -> denies (run w req))) /\
  (method req = "GET" ->
   (allows (run w req) <-> owns req u \/ is_admin u) /\
   (denies (run w req) <-> ~ (owns req u \/ is_admin u))) /\
  (forall s n,
      params req !! "userId" = Some s ->
      decimal_numeral s = Some n -> n < 2 ^ 53 ->
      (owns req u <-> n = id u)).
Proof.
  intros H Hu. refine (conj _ (conj _ (owns_numeral req u))).
  all: unfold owns, is_admin, is_consumer.
  all: intros Hm; enter H; rewrite Hu, Hm; exec;
    destruct (type u) eqn:E; cbn; destruct (JS.loose_eq_number _ _); settle.
Qed.

Lemma user_orders_rule_witness :
  classified (probe_by (Some administrator_1) authorization.ALL_USER_ORDERS
                "POST") authorization.ALL_USER_ORDERS /\
  owns (probe_by (Some administrator_1) authorization.ALL_USER_ORDERS "POST")
    administrator_1 /\
  denies (run related (probe_by (Some administrator_1)
                         authorization.ALL_USER_ORDERS "POST")).
Proof.
  pose proof (probe_by_classified (Some administrator_1)
                authorization.ALL_USER_ORDERS "POST") as H.
  assert (owns (probe_by (Some administrator_1)
                  authorization.ALL_USER_ORDERS "POST") administrator_1) as Ho
    by (unfold owns; vm_compute; reflexivity).
  refine (conj H (conj Ho _)).
  exact (proj2 (proj2 (proj1 (user_orders_rule related _ administrator_1 H
                                eq_refl) eq_refl)) eq_refl).
Defined.

(** X5.  A GET on [SINGLE_ORDER] is handed on iff the order-relationship
    query answers true, for any caller, administrators included, and is
    denied when it answers false; the query is made exactly once, with
    [req.user] and [routeParams.orderId], and the item query is never
    made. *)
Theorem single_order_relationship (w : Collaborators) (req : Request) :
  classified req authorization.SINGLE_ORDER ->
  method req = "GET" ->
  let orderId := params req !! "orderId" in
  let order := checkUserOrderRelationship w (user req) orderId in
  (allows (run w req) <-> order = Resolves true) /\
  (denies (run w req) <-> order = Resolves false) /\
  filter is_query (trace (snd (run w req)))
  = [OrderQuery (user req) orderId].
Proof.
  intros H Hm. enter H. rewrite Hm. exec.
  destruct (checkUserOrderRelationship w _ _) as [[|]|]; cbn; settle.
Qed.

Lemma single_order_relationship_witness :
  classified get_order authorization.SINGLE_ORDER /\
  method get_order = "GET" /\
  (denies (run anonymous get_order) <->
   checkUserOrderRelationship anonymous (user get_order)
     (params get_order !! "orderId") = Resolves false).
Proof.
  assert (classified get_order authorization.SINGLE_ORDER) as H
    by (vm_compute; reflexivity).
  refine (conj H (conj eq_refl _)).
  exact (proj1 (proj2 (single_order_relationship anonymous get_order H
                         eq_refl))).
Defined.

(** X6.  In every run the middleware calls [next()] at most once, sends at
    most one response, and never does both. *)
Theorem one_outcome (w : Collaborators) (req : Request) :
  (handed_on (trace (snd (run w req)))
   + length (responses (trace (snd (run w req)))) <= 1)%nat.
Proof.
  unfold run, authorization.check, authorization.dispatch, initial.
  destruct (authorization.resourceIdentification !! _) as [[]|]; exec.
  all: repeat (case_match; cbn in *; subst; simplify_eq; cbn in * ).
  all: cbn; lia.
Qed.

(** X7.  The middleware throws in two situations only.  A TypeError,
    before any effect, when it reads the caller and the request brought
    none, when the comparison of the body's type field throws, or when the
    body has a field called [hasOwnProperty]; or the rejection of a
    relationship query it awaited. *)
Theorem throws_only (w : Collaborators) (req : Request) (e : Exception) :
  fst (run w req) = Threw e ->
  (e = TypeError /\ trace (snd (run w req)) = [] /\
   (user req = None \/ type_is_administrator req = None \/
    shadows_hasOwnProperty req)) \/
  (e = Rejection /\ collaborator_failure w (run w req)).
Proof.
  unfold run, authorization.check, authorization.dispatch, initial.
  destruct (authorization.resourceIdentification !! _) as [[]|]; exec.
  all: unfold collaborator_failure, type_is_administrator,
         shadows_hasOwnProperty.
  all: repeat (case_match; cbn in *; subst; simplify_eq; cbn in * ).
  all: intros Ht; simplify_eq; try discriminate; eauto 6.
  all: right; split; [ reflexivity | ].
  all: match goal with
       | Hx : checkUserItemRelationship _ ?c ?o ?i = Rejects |- _ =>
           exists (ItemQuery c o i)
       | Hx : checkUserOrderRelationship _ ?c ?o = Rejects |- _ =>
           exists (OrderQuery c o)
       end; cbn; tauto.
Qed.

Lemma throws_only_witness :
  fst (run oracle_down get_order) = Threw Rejection /\
  ((Rejection = TypeError /\
    trace (snd (run oracle_down get_order)) = [] /\
    (user get_order = None \/ type_is_administrator get_order = None \/
     shadows_hasOwnProperty get_order)) \/
   (Rejection = Rejection /\
    collaborator_failure oracle_down (run oracle_down get_order))).
Proof.
  assert (fst (run oracle_down get_order) = Threw Rejection) as H
    by (vm_compute; reflexivity).
  exact (conj H (throws_only oracle_down get_order Rejection H)).
Defined.

(** X8.  When the request brought no caller and its body has no field
    called [hasOwnProperty], the middleware throws a TypeError exactly on
    the cases that read [req.user], which are the cases that have a rule
    for the method, except the sign-up (POST on [ALL_USERS]), [ALL_ORDERS]
    and the two relationship-gated kinds, and on the sign-up whose type
    field cannot be compared.  The request is then neither handed on nor
    answered. *)
Theorem absent_caller_throws
    (w : Collaborators) (req : Request) (k : authorization.ResourceKind) :
  classified req k ->
  user req = None ->
  ~ shadows_hasOwnProperty req ->
  (fst (run w req) = Threw TypeError <->
   reads_caller k (method req) = true \/
   (k = authorization.ALL_USERS /\ method req = "POST" /\
    type_is_administrator req = None)) /\
  (fst (run w req) = Threw TypeError -> trace (snd (run w req)) = []).
Proof.
  intros H Hu Hs. enter H. rewrite Hu.
  unfold shadows_hasOwnProperty in Hs. apply eq_None_not_Some in Hs.
  unfold type_is_administrator.
  destruct k; cbn [reads_caller no_branch existsb];
    repeat match goal with
      | |- context [String.eqb (method req) ?b] =>
          destruct (String.eqb (method req) b) eqn:?
      end; exec; rewrite ?Hs;
    repeat (case_match; cbn in *; subst; simplify_eq; cbn in * );
    repeat match goal with
      | Hx : String.eqb _ _ = true |- _ => apply String.eqb_eq in Hx
      end;
    intuition (try congruence; try discriminate).
Qed.

Lemma absent_caller_throws_witness :
  classified get_categories_anonymously authorization.ALL_CATEGORIES /\
  user get_categories_anonymously = None /\
  ~ shadows_hasOwnProperty get_categories_anonymously /\
  fst (run related get_categories_anonymously) = Threw TypeError.
Proof.
  assert (classified get_categories_anonymously authorization.ALL_CATEGORIES)
    as H by (vm_compute; reflexivity).
  assert (~ shadows_hasOwnProperty get_categories_anonymously) as Hs
    by (unfold shadows_hasOwnProperty; apply eq_None_not_Some;
        vm_compute; reflexivity).
  assert (reads_caller authorization.ALL_CATEGORIES
            (method get_categories_anonymously) = true) as Hr
    by (vm_compute; reflexivity).
  refine (conj H (conj eq_refl (conj Hs _))).
  exact (proj2 (proj1 (absent_caller_throws related get_categories_anonymously
                         authorization.ALL_CATEGORIES H eq_refl Hs))
               (or_introl Hr)).
Defined.

(** X9.  A resolved caller who is neither the user named in the route nor
    an administrator is never handed on a request of a kind under
    [/user/:userId], whatever the method, the body and the answers of the
    collaborators; it is denied, unless the request is a PUT on
    [SINGLE_USER] whose body has a field called [hasOwnProperty], on which
    the middleware throws.  For a parameter that is the decimal numeral of
    an integer below [2^53], being that user is equality of the integer
    and the caller's id. *)
Theorem strangers_denied
    (w : Collaborators) (req : Request)
    (k : authorization.ResourceKind) (u : User) :
  classified req k ->
  user_scoped k ->
  user req = Some u ->
  ~ owns req u ->
  ~ is_admin u ->
  ~ allows (run w req) /\
  (~ (k = authorization.SINGLE_USER /\ method req = "PUT" /\
      shadows_hasOwnProperty req) ->
   denies (run w req)) /\
  (forall s n,
      params req !! "userId" = Some s ->
      decimal_numeral s = Some n -> n < 2 ^ 53 ->
      (owns req u <-> n = id u)).
Proof.
  intros H Hk Hu Ho Ha.
  assert (~ allows (run w req) /\
          (~ (k = authorization.SINGLE_USER /\ method req = "PUT" /\
              shadows_hasOwnProperty req) ->
           denies (run w req))) as Hmain.
  { unfold owns in Ho. unfold is_admin in Ha.
    apply not_true_is_false in Ho.
    unfold user_scoped in Hk. cbn in Hk.
    unfold shadows_hasOwnProperty.
    repeat match goal with
      | Hx : _ \/ _ |- _ => destruct Hx as [Hx | Hx]
      | Hx : False |- _ => destruct Hx
      | Hx : _ = k |- _ => subst k
      end;
      enter H; rewrite Hu;
      repeat match goal with
        | |- context [String.eqb (method req) ?b] =>
            destruct (String.eqb (method req) b) eqn:?
        end;
      exec; rewrite ?Ho; cbn;
      destruct (type u) eqn:E; try congruence; cbn;
      repeat (case_match; cbn in *; subst; simplify_eq; cbn in * );
      repeat match goal with
        | Hx : String.eqb _ _ = true |- _ => apply String.eqb_eq in Hx
        end;
      try congruence; settle; eauto;
      exfalso;
      match goal with
      | Hn : is_Some _ -> False |- _ => apply Hn; eexists; reflexivity
      end. }
  exact (conj (proj1 Hmain) (conj (proj2 Hmain) (owns_numeral req u))).
Qed.

Lemma strangers_denied_witness :
  classified (probe_by (Some consumer_2) authorization.SINGLE_USER "GET")
    authorization.SINGLE_USER /\
  ~ owns (probe_by (Some consumer_2) authorization.SINGLE_USER "GET")
      consumer_2 /\
  denies (run related
            (probe_by (Some consumer_2) authorization.SINGLE_USER "GET")).
Proof.
  pose proof (probe_by_classified (Some consumer_2)
                authorization.SINGLE_USER "GET") as H.
  assert (~ owns (probe_by (Some consumer_2) authorization.SINGLE_USER "GET")
              consumer_2) as Ho
    by (unfold owns; vm_compute; discriminate).
  assert (~ is_admin consumer_2) as Ha by (unfold is_admin; cbn; discriminate).
  assert (user_scoped authorization.SINGLE_USER) as Hk by (left; reflexivity).
  refine (conj H (conj Ho _)).
  apply (proj1 (proj2
           (strangers_denied related _ _ consumer_2 H Hk eq_refl Ho Ha))).
  intros [_ [Hm _]]. discriminate Hm.
Defined.

(** X10.  Apart from the sign-up of an administrator and the two
    relationship-gated rules, the middleware asks no collaborator: the
    run makes no query and is the same whatever the collaborators would
    answer. *)
Theorem decides_alone (w w' : Collaborators) (req : Request) :
  consults req = false ->
  run w req = run w' req /\
  filter is_query (trace (snd (run w req))) = [].
Proof.
  unfold consults, type_is_administrator, run, authorization.check,
    authorization.dispatch, initial.
  destruct (authorization.resourceIdentification !! _) as [[]|];
    intros Hc; cbn in Hc;
    repeat match goal with
      | |- context [String.eqb (method req) ?b] =>
          destruct (String.eqb (method req) b) eqn:?
      end; cbn in Hc; try discriminate; rewrite ?Hc; exec;
    repeat (case_match; cbn in *; subst; simplify_eq; cbn in * );
    split; reflexivity.
Qed.

Lemma decides_alone_witness :
  consults get_own_account = false /\
  run anonymous get_own_account = run oracle_down get_own_account.
Proof.
  assert (consults get_own_account = false) as H by (vm_compute; reflexivity).
  exact (conj H (proj1 (decides_alone anonymous oracle_down get_own_account H))).
Defined.

(** X11.  The middleware reads the body in two cases only, a POST on
    [ALL_USERS] and a PUT on [SINGLE_USER]: for any other request the run
    is the same whatever the body. *)
Theorem body_ignored
    (w : Collaborators) (req : Request) (b : gmap string JS.Value) :
  reads_body req = false ->
  run w (with_body b req) = run w req.
Proof.
  unfold reads_body, run, authorization.check, authorization.dispatch,
    initial, authorization.incomingRoute, with_body.
  cbn [method baseUrl route_path params body user].
  destruct (authorization.resourceIdentification !! _) as [[]|];
    intros Hc; cbn in Hc; rewrite ?Hc; reflexivity.
Qed.

Lemma body_ignored_witness :
  reads_body get_own_account = false /\
  run anonymous
    (with_body {[ "type" := JS.Str "ADMINISTRATOR" ]} get_own_account)
  = run anonymous get_own_account.
Proof.
  assert (reads_body get_own_account = false) as H
    by (vm_compute; reflexivity).
  exact (conj H (body_ignored anonymous get_own_account _ H)).
Defined.

(** X12.  The cases of [ALL_ADDRESSES], [SINGLE_ADDRESS], [ALL_ORDERS],
    [ALL_CATEGORIES], [SINGLE_CATEGORY] and of the cart and wishlist kinds
    never test the method: the run is the same for every method, also
    those the comments of the case do not list. *)
Theorem method_ignored
    (w : Collaborators) (req : Request)
    (k : authorization.ResourceKind) (intent : string) :
  classified req k ->
  method_blind k ->
  run w (with_method intent req) = run w req.
Proof.
  intros H Hk. unfold classified in H.
  unfold run, authorization.check, authorization.dispatch, initial,
    authorization.incomingRoute, with_method in *.
  cbn [method baseUrl route_path params body user].
  rewrite H. unfold method_blind in Hk. cbn in Hk.
  repeat match goal with
    | Hx : _ \/ _ |- _ => destruct Hx as [Hx | Hx]
    | Hx : False |- _ => destruct Hx
    | Hx : _ = k |- _ => subst k
    end; reflexivity.
Qed.

Lemma method_ignored_witness :
  classified get_categories authorization.ALL_CATEGORIES /\
  method_blind authorization.ALL_CATEGORIES /\
  run anonymous (with_method "POST" get_categories)
  = run anonymous get_categories.
Proof.
  assert (classified get_categories authorization.ALL_CATEGORIES) as H
    by (vm_compute; reflexivity).
  assert (method_blind authorization.ALL_CATEGORIES) as Hk
    by (unfold method_blind; cbn; tauto).
  exact (conj H (conj Hk
           (method_ignored anonymous get_categories _ "POST" H Hk))).
Defined.

(** ** Properties of the authentication middleware and of [getUserByID] *)

(** X13.  [getUserByID] never throws: it returns the record the query
    found, and [null] both when there is no such user and when the query
    fails, after exactly one query. *)
Theorem getUserByID_total (w : Collaborators) (userId : Z) (s : State) :
  persistence.getUserByID w userId s
  = (Returned match findUnique w userId with
              | Resolves found => found
              | Rejects => None
              end,
     {| req_user := req_user s; resolved := resolved s;
        trace := trace s ++ [FindUnique userId] |}).
Proof.
  unfold persistence.getUserByID. exec.
  destruct (findUnique w userId); reflexivity.
Qed.

(** X14.  When the bearer token resolves to no caller, the authentication
    middleware answers 401 "Invalid token. Unauthorized access." and never
    calls [next()], whatever [next] is; a token passport rejects causes no
    user lookup, and a lookup that fails is answered 401 like an unknown
    user, not 500. *)
Theorem authentication_rejects
    (w : Collaborators) (next : M unit) (s : State) :
  authenticated_caller w = None ->
  authentication.check w next s
  = (Returned tt,
     {| req_user := req_user s; resolved := resolved s;
        trace := trace s ++ lookups w
                 ++ [Send 401 (Message "Invalid token. Unauthorized access.")]
     |}).
Proof.
  unfold authenticated_caller, lookups. intros H. exec.
  destruct (jwt w) as [| |tid]; cbn; try reflexivity.
  destruct (findUnique w tid) as [[u|]|]; cbn; try discriminate;
    rewrite <- app_assoc; reflexivity.
Qed.

Lemma authentication_rejects_witness :
  authenticated_caller store_down = None /\
  authentication.check store_down (emit Next) (initial get_own_account)
  = (Returned tt,
     {| req_user := Some consumer_5; resolved := false;
        trace := [FindUnique 5;
                  Send 401 (Message "Invalid token. Unauthorized access.")]
     |}).
Proof.
  assert (authenticated_caller store_down = None) as H by reflexivity.
  exact (conj H (authentication_rejects store_down (emit Next)
                   (initial get_own_account) H)).
Defined.

(** X15.  When the token resolves to a caller, the authentication
    middleware makes one lookup, assigns the caller to [req.user] and then
    calls [next()]; if [next] throws, it answers 500 after whatever [next]
    had done, and the exception goes no further. *)
Theorem authentication_accepts
    (w : Collaborators) (next : M unit) (s : State) (u : User) :
  authenticated_caller w = Some u ->
  authentication.check w next s
  = match next (authenticated w u s) with
    | (Threw _, s') =>
        (Returned tt,
         {| req_user := req_user s'; resolved := resolved s';
            trace := trace s' ++ [Send 500 DefaultErr] |})
    | r => r
    end.
Proof.
  unfold authenticated_caller, authenticated, lookups. intros H. exec.
  destruct (jwt w) as [| |tid]; cbn; try discriminate.
  destruct (findUnique w tid) as [[u'|]|]; cbn; try discriminate.
  injection H as ->.
  destruct (next _) as [[[]|e|] s']; reflexivity.
Qed.

Lemma authentication_accepts_witness :
  authenticated_caller related = Some administrator_1 /\
  authentication.check related (emit Next) (initial administrator_signup)
  = (Returned tt,
     {| req_user := Some administrator_1; resolved := false;
        trace := [FindUnique 1; Next] |}).
Proof.
  assert (authenticated_caller related = Some administrator_1) as H
    by reflexivity.
  exact (conj H (authentication_accepts related (emit Next)
                   (initial administrator_signup) administrator_1 H)).
Defined.

(** ** Properties of the persistence library *)

(** X16.  [createUser] never returns an id: whatever the parameters and
    whatever the database answers, it returns [null].  It always asks the
    database to create the user, and it makes no call other than that one,
    the hashing of the password and the creation of the credentials: no
    address, no company.  When these three succeed the user row and its
    credentials have been created and [null] is returned all the same. *)
Theorem createUser_never_succeeds
    (w : Persistence.World) (params : list (string * Json))
    (log : list Persistence.Call) :
  fst (Persistence.createUser w params log) = Task.Value None /\
  exists data calls,
    snd (Persistence.createUser w params log)
    = (log ++ Persistence.user_create data :: calls)%list /\
    forallb account_call calls = true /\
    forall row hash,
      Persistence.on_user_create w data = Resolves row ->
      Persistence.on_hashSync w (Persistence.field params "password")
      = Resolves hash ->
      Persistence.on_credentials_create w (Persistence.row_id row) "local" hash
      = Resolves tt ->
      calls = [ Persistence.hashSync (Persistence.field params "password");
                Persistence.credentials_create (Persistence.row_id row)
                  "local" hash ].
Proof.
  unfold Persistence.createUser.
  set (data := [("first_name", _); _; _; _; _]).
  texec.
  destruct (Persistence.on_user_create w data) as [row|] eqn:Hu; cbn.
  2: { split; [ reflexivity | ]. exists data, []. repeat split; try reflexivity.
       intros; congruence. }
  destruct (Persistence.on_hashSync w _) as [hash|] eqn:Hh; cbn.
  2: { split; [ reflexivity | ].
       exists data, [Persistence.hashSync (Persistence.field params "password")].
       rewrite <- app_assoc. repeat split; try reflexivity.
       intros; congruence. }
  destruct (Persistence.on_credentials_create w _ _ _) as [[]|] eqn:Hc; cbn.
  2: { split; [ reflexivity | ].
       exists data,
         [Persistence.hashSync (Persistence.field params "password");
          Persistence.credentials_create (Persistence.row_id row) "local" hash].
       rewrite <- !app_assoc. repeat split; try reflexivity.
       intros; congruence. }
  assert (forall A (x : A) l1 l2 l3, (((l1 ++ [x]) ++ l2) ++ l3
                                     = l1 ++ x :: (l2 ++ l3))%list) as Happ
    by (intros; rewrite <- !app_assoc; reflexivity).
  destruct (Persistence.field params "address") as [[]|]; cbn;
    (split; [ reflexivity | ]);
    exists data,
      [Persistence.hashSync (Persistence.field params "password");
       Persistence.credentials_create (Persistence.row_id row) "local" hash];
    rewrite Happ; repeat split; try reflexivity;
    intros row' hash' H1 H2 _; congruence.
Qed.

Lemma createUser_never_succeeds_witness :
  Persistence.createUser all_well supplier_signup []
  = (Task.Value None,
     [ Persistence.user_create
         [ ("first_name", Some (JStr "Ana")); ("last_name", Some (JStr "Silva"));
           ("email", Some (JStr "ana@example.org"));
           ("phone", Some (JStr "910000000"));
           ("type", Some (JStr "SUPPLIER")) ];
       Persistence.hashSync (Some (JStr "secret"));
       Persistence.credentials_create 7 "local" "$2b$10$hash" ]) /\
  fst (Persistence.createUser all_well supplier_signup []) = Task.Value None.
Proof.
  split; [ vm_compute; reflexivity | ].
  exact (proj1 (createUser_never_succeeds all_well supplier_signup [])).
Defined.

(** X17.  [deleteUser] never throws, and returns [true] exactly when both
    deletions succeed: the lookup it starts is not awaited, so what it
    finds plays no part.  When the user has been deleted and the deletion
    of the addresses fails, it returns [false] although the user is gone. *)
Theorem deleteUser_outcome
    (w : Persistence.World) (userId : option Json)
    (log : list Persistence.Call) :
  (fst (Persistence.deleteUser w userId log) = Task.Value true <->
   Persistence.on_user_delete w userId = Resolves tt /\
   Persistence.on_address_deleteMany w userId = Resolves tt) /\
  (fst (Persistence.deleteUser w userId log) = Task.Value true \/
   fst (Persistence.deleteUser w userId log) = Task.Value false) /\
  (Persistence.on_user_delete w userId = Resolves tt ->
   Persistence.on_address_deleteMany w userId = Rejects ->
   Persistence.deleteUser w userId log
   = (Task.Value false,
      (log ++ [ Persistence.user_findUnique "id" userId;
                Persistence.user_delete userId;
                Persistence.address_deleteMany userId ])%list)).
Proof.
  unfold Persistence.deleteUser. texec.
  destruct (Persistence.on_user_findUnique w "id" userId);
    destruct (Persistence.on_user_delete w userId) as [[]|];
    destruct (Persistence.on_address_deleteMany w userId) as [[]|]; cbn;
    rewrite <- ?app_assoc; cbn;
    intuition (try congruence; try discriminate).
Qed.

Lemma deleteUser_outcome_witness :
  Persistence.on_user_delete addresses_locked (Some (JNum (JS.of_Z 7)))
  = Resolves tt /\
  Persistence.on_address_deleteMany addresses_locked (Some (JNum (JS.of_Z 7)))
  = Rejects /\
  fst (Persistence.deleteUser addresses_locked (Some (JNum (JS.of_Z 7))) [])
  = Task.Value false.
Proof.
  refine (conj eq_refl (conj eq_refl _)).
  exact (f_equal fst
           (proj2 (proj2 (deleteUser_outcome addresses_locked
                            (Some (JNum (JS.of_Z 7))) []))
              eq_refl eq_refl)).
Defined.

(** X18.  [checkUserConflict] queries the database only for the
    attributes [id] and [email], returning what the query finds, or [null]
    when it fails.  For any other attribute, [phone] included, it makes no
    query and returns [undefined]: no conflict is ever reported. *)
Theorem checkUserConflict_attributes
    (w : Persistence.World) (attribute : string) (value : option Json)
    (log : list Persistence.Call) :
  (attribute = "id" \/ attribute = "email" ->
   Persistence.checkUserConflict w attribute value log
   = (match Persistence.on_user_findUnique w attribute value with
      | Resolves row => Task.Value (Persistence.Found row)
      | Rejects => Task.Value Persistence.Null
      end,
      (log ++ [Persistence.user_findUnique attribute value])%list)) /\
  (attribute <> "id" -> attribute <> "email" ->
   Persistence.checkUserConflict w attribute value log
   = (Task.Value Persistence.Undefined, log)).
Proof.
  unfold Persistence.checkUserConflict. split.
  - intros [-> | ->]; texec;
      destruct (Persistence.on_user_findUnique w _ value); reflexivity.
  - intros H1 H2. apply String.eqb_neq in H1, H2. rewrite H1, H2. reflexivity.
Qed.

Lemma checkUserConflict_attributes_witness :
  "phone" <> "id" /\ "phone" <> "email" /\
  Persistence.checkUserConflict all_well "phone" (Some (JStr "910000000")) []
  = (Task.Value Persistence.Undefined, []).
Proof.
  assert ("phone" <> "id") as H1 by discriminate.
  assert ("phone" <> "email") as H2 by discriminate.
  exact (conj H1 (conj H2
           (proj2 (checkUserConflict_attributes all_well "phone"
                     (Some (JStr "910000000")) []) H1 H2))).
Defined.

(** X19.  [createAddress] never throws and never fails because of
    geocoding: it geocodes the line "street, city, country" and then
    creates the address, returning [null] exactly when the creation fails.
    When geocoding fails or finds nothing, the address is stored with
    latitude 0 and longitude 0. *)
Theorem createAddress_geocoding
    (w : Persistence.World) (userID : option Json)
    (street city country : string) (postal_code nif : option Json)
    (log : list Persistence.Call) :
  let line := Persistence.address_line street city country in
  let data : list (string * option Json) :=
    [ ("user", userID); ("nif", nif); ("street", Some (JStr street));
      ("city", Some (JStr city)); ("country", Some (JStr country));
      ("postal_code", postal_code) ] in
  let coordinates :=
    match Persistence.on_geocode w line with
    | Resolves (Some location) =>
        (Persistence.Rounded (Persistence.lat location),
         Persistence.Rounded (Persistence.lng location))
    | Resolves None | Rejects => (Persistence.Zero, Persistence.Zero)
    end in
  Persistence.createAddress w userID street city country postal_code nif log
  = (match Persistence.on_address_create w data
             (fst coordinates) (snd coordinates) with
     | Resolves newAddress => Task.Value (Some newAddress)
     | Rejects => Task.Value None
     end,
     (log ++ [ Persistence.geocode line;
               Persistence.address_create data
                 (fst coordinates) (snd coordinates) ])%list).
Proof.
  unfold Persistence.createAddress. texec.
  destruct (Persistence.on_geocode w _) as [[location|]|]; cbn;
    destruct (Persistence.on_address_create w _ _ _); cbn;
    rewrite <- ?app_assoc; reflexivity.
Qed.

(** *** The selection loop *)

Lemma field_assign (fields : list (string * Json)) (k t : string) (v : Json) :
  Persistence.field (Persistence.assign fields k v) t
  = if String.eqb k t then Some v else Persistence.field fields t.
Proof.
  induction fields as [|[k' v'] rest IH]; cbn.
  - reflexivity.
  - destruct (String.eqb_spec k' k) as [->|Hk]; cbn.
    + destruct (String.eqb_spec k t); reflexivity.
    + rewrite IH. destruct (String.eqb_spec k' t) as [->|];
        destruct (String.eqb_spec k t); congruence.
Qed.


Lemma field_absent (fields : list (string * Json)) (k : string) :
  ~ In k (keys fields) -> Persistence.field fields k = None.
Proof.
  unfold keys. induction fields as [|[k' v'] rest IH]; cbn; [ reflexivity | ].
  intros H. destruct (String.eqb_spec k' k); [ tauto | apply IH; tauto ].
Qed.

(** With a conversion that neither fails nor calls, the loop does
    neither. *)
Lemma select_pure (keyMap : list (string * string))
    (params selection : list (string * Json)) (log : list Persistence.Call) :
  exists selected,
    Persistence.select keyMap (fun _ value => Task.ret value)
      params selection log
    = (Task.Value selected, log).
Proof.
  revert selection. induction params as [|[key value] rest IH]; intros; cbn.
  - eexists; reflexivity.
  - destruct (Persistence.mapped keyMap key); [ | apply IH ].
    unfold Task.bind, Task.ret. apply IH.
Qed.


(** When [source] is the one key that maps to [target] and the parameters
    list each key once, the selection holds at [target] the converted
    value of the parameters at [source], and what it held before when the
    parameters have no such key. *)
Lemma select_field (keyMap : list (string * string))
    (convert : string -> Json -> Task.T Persistence.Call Json)
    (source target : string) (params : list (string * Json)) :
  (forall k, Persistence.mapped keyMap k = Some target <-> k = source) ->
  NoDup (keys params) ->
  forall selection log selected log',
    Persistence.select keyMap convert params selection log
    = (Task.Value selected, log') ->
    match Persistence.field params source with
    | Some value =>
        exists converted l l',
          convert source value l = (Task.Value converted, l') /\
          Persistence.field selected target = Some converted
    | None =>
        Persistence.field selected target
        = Persistence.field selection target
    end.
Proof.
  intros Hone. unfold keys.
  induction params as [|[key value] rest IH]; intros Hnd selection log
    selected log' H; cbn in H |- *.
  - injection H as <- _. reflexivity.
  - inversion Hnd as [|? ? Hnotin Hnd']; subst.
    rewrite list_elem_of_In in Hnotin.
    destruct (String.eqb_spec key source) as [->|Hne].
    + pose proof (proj2 (Hone source) eq_refl) as Hm. rewrite Hm in H.
      unfold Task.bind in H.
      destruct (convert source value log) as [[v|e] log1] eqn:Hc;
        [ | discriminate ].
      specialize (IH Hnd' _ _ _ _ H).
      rewrite (field_absent rest source Hnotin) in IH.
      exists v, log, log1. split; [ exact Hc | ].
      rewrite IH, field_assign, String.eqb_refl. reflexivity.
    + destruct (Persistence.mapped keyMap key) as [t|] eqn:Hm.
      * assert (t <> target) as Ht
          by (intros ->; apply Hne; apply Hone; exact Hm).
        unfold Task.bind in H.
        destruct (convert key value log) as [[v|e] log1]; [ | discriminate ].
        specialize (IH Hnd' _ _ _ _ H).
        destruct (Persistence.field rest source); [ exact IH | ].
        rewrite IH, field_assign.
        apply String.eqb_neq in Ht. rewrite Ht. reflexivity.
      * exact (IH Hnd' _ _ _ _ H).
Qed.



Lemma address_flag_source (c : string) :
  c = "is_shipping" \/ c = "is_billing" ->
  forall k, Persistence.mapped Persistence.addressKeyMap k = Some c <-> k = c.
Proof. intros [-> | ->]; one_source. Qed.





(** X21.  [updateAddress] clears the default flag of every address of the
    user before it updates the one address: when the parameters set
    [is_shipping] to a true value and the update then fails, [null] is
    returned and the user is left with no default shipping address. *)
Theorem updateAddress_clears_first
    (w : Persistence.World) (userId addressId : option Json)
    (fields : list (string * Json)) (log : list Persistence.Call) :
  NoDup (keys fields) ->
  Persistence.truthy (Persistence.field fields "is_shipping") = true ->
  Persistence.truthy (Persistence.field fields "is_billing") = false ->
  Persistence.on_address_updateMany w userId "is_shipping" = Resolves tt ->
  (forall data, Persistence.on_address_update w addressId data = Rejects) ->
  exists data,
    Persistence.updateAddress w userId addressId (Some (JObj fields)) log
    = (Task.Value Persistence.NullUpdate,
       (log ++ [ Persistence.address_updateMany userId "is_shipping";
                 Persistence.address_update addressId data ])%list).
Proof.
  intros Hnd Hs Hb Hmany Hupdate.
  unfold Persistence.updateAddress, Persistence.entries.
  unfold Task.bind at 1, Task.ret at 1. unfold Task.bind at 1.
  destruct (select_pure Persistence.addressKeyMap fields [] log)
    as [selection Hsel].
  rewrite Hsel.
  pose proof (select_field _ _ "is_shipping" "is_shipping" fields
                (address_flag_source _ (or_introl eq_refl)) Hnd _ _ _ _ Hsel)
    as Hfs.
  pose proof (select_field _ _ "is_billing" "is_billing" fields
                (address_flag_source _ (or_intror eq_refl)) Hnd _ _ _ _ Hsel)
    as Hfb.
  assert (Persistence.field selection "is_shipping"
          = Persistence.field fields "is_shipping") as ->.
  { destruct (Persistence.field fields "is_shipping"); [ | exact Hfs ].
    destruct Hfs as [c [l [l' [[= <- _] Hf]]]]. exact Hf. }
  assert (Persistence.field selection "is_billing"
          = Persistence.field fields "is_billing") as ->.
  { destruct (Persistence.field fields "is_billing"); [ | exact Hfb ].
    destruct Hfb as [c [l [l' [[= <- _] Hf]]]]. exact Hf. }
  rewrite Hs, Hb. exists selection. texec.
  rewrite Hmany, Hupdate. cbn. rewrite <- app_assoc. reflexivity.
Qed.

Lemma updateAddress_clears_first_witness :
  Persistence.updateAddress address_locked (Some (JNum (JS.of_Z 5)))
    (Some (JNum (JS.of_Z 9))) make_default_shipping []
  = (Task.Value Persistence.NullUpdate,
     [ Persistence.address_updateMany (Some (JNum (JS.of_Z 5))) "is_shipping";
       Persistence.address_update (Some (JNum (JS.of_Z 9)))
         [ ("street", JStr "Rua B"); ("is_shipping", JBool true) ] ]) /\
  exists data,
    Persistence.updateAddress address_locked (Some (JNum (JS.of_Z 5)))
      (Some (JNum (JS.of_Z 9))) make_default_shipping []
    = (Task.Value Persistence.NullUpdate,
       [ Persistence.address_updateMany (Some (JNum (JS.of_Z 5)))
           "is_shipping";
         Persistence.address_update (Some (JNum (JS.of_Z 9))) data ]).
Proof.
  split; [ vm_compute; reflexivity | ].
  refine (updateAddress_clears_first address_locked (Some (JNum (JS.of_Z 5)))
            (Some (JNum (JS.of_Z 9)))
            [ ("street", JStr "Rua B"); ("is_shipping", JBool true) ] []
            _ eq_refl eq_refl eq_refl (fun _ => eq_refl)).
  unfold keys. cbn.
  repeat (constructor; [ rewrite list_elem_of_In; cbn; intuition discriminate | ]).
  constructor.
Defined.
